(** * The authenticated request core of the CapRover deployment API

    A shallow embedding of [src/index.js] (the session-token variant):
    the module-level [sessionToken], [getAuthHeaders], [authenticate] and
    [makeCaproverRequest], together with the part of axios they rely on.

    The JavaScript is asynchronous and effectful.  Its effects are modelled
    by a state-and-exception monad over the module state; every outbound
    HTTP call is answered by an [Upstream] oracle and recorded in a trace,
    so that logins and dispatches can be counted.  [console.log] output is
    not modelled.

    The file has two parts.  The first holds the definitions: the model of
    the program, the notions used to state its properties, an interleaving
    model of concurrent invocations ([Concurrent]), concrete scenarios
    ([Scenario]) and the route handlers of both variants of the program
    ([Express], [Routes], [V1]).  The second holds the properties and
    their proofs. *)

From Stdlib Require Import String ZArith List Bool Lia DecimalString.
Import ListNotations.

Local Open Scope string_scope.
Local Open Scope list_scope.
Local Open Scope Z_scope.

(** ** JavaScript values *)

Module Js.

#[local] Set Warnings "-register-all".

(** The values a parsed response body, a payload or [sessionToken] can
    hold.  Numbers are restricted to integers. *)
Inductive value : Type :=
| Undefined
| Null
| Bool (b : bool)
| Num (z : Z)
| Str (s : string)
| Arr (items : list value)
| Obj (fields : list (string * value)).

(** [!!v] *)
Definition truthy (v : value) : bool :=
  match v with
  | Undefined | Null => false
  | Bool b => b
  | Num z => negb (z =? 0)
  | Str s => negb (s =? "")%string
  | Arr _ | Obj _ => true
  end.

Fixpoint lookup (k : string) (fields : list (string * value)) : value :=
  match fields with
  | [] => Undefined
  | (k', v) :: rest => if (k =? k')%string then v else lookup k rest
  end.

(** [v.k] for the own data properties of a value that is neither [null]
    nor [undefined]; only objects carry the keys read by the program. *)
Definition get (v : value) (k : string) : value :=
  match v with
  | Obj fields => lookup k fields
  | _ => Undefined
  end.

Definition string_of_Z (z : Z) : string :=
  NilZero.string_of_int (Z.to_int z).

(** [`${v}`]: the string a template literal interpolates. *)
Fixpoint toString (v : value) : string :=
  match v with
  | Undefined => "undefined"
  | Null => "null"
  | Bool true => "true"
  | Bool false => "false"
  | Num z => string_of_Z z
  | Str s => s
  | Arr items =>
      let item v :=
        match v with
        | Undefined | Null => ""
        | _ => toString v
        end in
      String.concat "," (map item items)
  | Obj _ => "[object Object]"
  end.

End Js.

(** ** HTTP requests, replies and errors *)

Record Request : Type := mkRequest {
  method : string;
  url : string;
  headers : list (string * string);
  data : Js.value
}.

(** [response.status] and [response.data]. *)
Record Response : Type := mkResponse {
  status : Z;
  body : Js.value
}.

(** What the network gives back for one outbound call: a response, or
    nothing at all (connection failure, timeout, DNS failure). *)
Inductive Reply : Type :=
| Responded (r : Response)
| NoResponse.

Inductive ErrorMessage : Type :=
| Text (s : string)
  (** [`Request failed with status ${status}: ${JSON.stringify(data)}`] *)
| RequestFailedWithStatus (status : Z) (data : Js.value).

(** The values thrown in the program: errors rejected by axios, which
    carry [error.response] when the upstream answered, and plain
    [new Error(message)] objects, which have no [response] property. *)
Inductive Error : Type :=
| AxiosError (response : option Response)
| PlainError (message : ErrorMessage).

(** [error.response] *)
Definition response_of (e : Error) : option Response :=
  match e with
  | AxiosError r => r
  | PlainError _ => None
  end.

(** [error.response?.status === 401] *)
Definition status_is_401 (e : Error) : bool :=
  match response_of e with
  | Some r => status r =? 401
  | None => false
  end.

(** ** Module state and the trace of outbound calls *)

(** The two places of the program that call [axios]. *)
Inductive Site : Type :=
| LoginCall      (** inside [authenticate] *)
| DispatchCall.  (** inside [makeCaproverRequest] *)

Record Event : Type := mkEvent {
  site : Site;
  request : Request;
  reply : Reply
}.

Record State : Type := mkState {
  sessionToken : Js.value;
  trace : list Event
}.

(** The upstream server: its reply to a request may depend on every call
    made before. *)
Definition Upstream : Type := list Event -> Request -> Reply.

(** [process.env]: a variable is a string or is not set. *)
Record Env : Type := mkEnv {
  CAPROVER_URL : option string;
  CAPROVER_PASSWORD : option string
}.

Definition env_value (v : option string) : Js.value :=
  match v with
  | Some s => Js.Str s
  | None => Js.Undefined
  end.

(** ** The monad of the program *)

Inductive Outcome (A : Type) : Type :=
| Return (a : A)
| Throw (e : Error)
| OutOfFuel.

Arguments Return {A} a.
Arguments Throw {A} e.
Arguments OutOfFuel {A}.

Definition M (A : Type) : Type := State -> Outcome A * State.

Definition ret {A} (a : A) : M A := fun s => (Return a, s).

Definition throw {A} (e : Error) : M A := fun s => (Throw e, s).

Definition bind {A B} (m : M A) (k : A -> M B) : M B :=
  fun s =>
    match m s with
    | (Return a, s') => k a s'
    | (Throw e, s') => (Throw e, s')
    | (OutOfFuel, s') => (OutOfFuel, s')
    end.

(** [try { m } catch (error) { handler error }] *)
Definition try_catch {A} (m : M A) (handler : Error -> M A) : M A :=
  fun s =>
    match m s with
    | (Throw e, s') => handler e s'
    | r => r
    end.

Definition read_sessionToken : M Js.value :=
  fun s => (Return (sessionToken s), s).

(** [sessionToken = v] *)
Definition write_sessionToken (v : Js.value) : M unit :=
  fun s => (Return tt, mkState v (trace s)).

Definition when (c : bool) (m : M unit) : M unit :=
  if c then m else ret tt.

Declare Scope js_scope.
Delimit Scope js_scope with js.
Notation "x <- m ;; k" := (bind m (fun x => k))
  (at level 61, m at next level, right associativity) : js_scope.
Notation "m ;; k" := (bind m (fun _ => k))
  (at level 61, right associativity) : js_scope.
Local Open Scope js_scope.

Definition LOGIN_ENDPOINT : string := "/api/v2/login".
Definition NO_SESSION_TOKEN : string :=
  "No session token available. Please authenticate first.".
Definition NO_VALID_TOKEN : string :=
  "No valid token received from authentication".

(** axios' default [validateStatus]. *)
Definition defaultValidateStatus (status : Z) : bool :=
  (200 <=? status) && (status <? 300).

(** The [validateStatus] option passed by [makeCaproverRequest]. *)
Definition dispatchValidateStatus (status : Z) : bool :=
  (200 <=? status) && (status <? 500).

(** axios settles a reply: a response whose status [validateStatus]
    accepts resolves the promise; any other response rejects it with an
    error carrying the response; no response rejects it with an error
    that has none. *)
Definition settle (validateStatus : Z -> bool) (r : Reply) : Outcome Response :=
  match r with
  | Responded resp =>
      if validateStatus (status resp) then Return resp
      else Throw (AxiosError (Some resp))
  | NoResponse => Throw (AxiosError None)
  end.

Section Executor.

Variable env : Env.
Variable upstream : Upstream.

(** [await axios({...})] issued from [at_site]. *)
Definition axios (at_site : Site) (validateStatus : Z -> bool)
           (req : Request) : M Response :=
  fun s =>
    let r := upstream (trace s) req in
    (settle validateStatus r,
     mkState (sessionToken s) (trace s ++ [mkEvent at_site req r])).

Definition getAuthHeaders : M (list (string * string)) :=
  tok <- read_sessionToken ;;
  if negb (Js.truthy tok) then throw (PlainError (Text NO_SESSION_TOKEN))
  else
    ret [("Content-Type", "application/json");
         ("Authorization", "Bearer " ++ Js.toString tok)]%string.

Definition loginRequest : Request :=
  {| method := "post";
     url := (Js.toString (env_value (CAPROVER_URL env)) ++ LOGIN_ENDPOINT)%string;
     headers := [("Content-Type", "application/json")]%string;
     data := Js.Obj [("password", env_value (CAPROVER_PASSWORD env))] |}.

Definition authenticate : M unit :=
  try_catch
    (response <- axios LoginCall defaultValidateStatus loginRequest ;;
     let d := body response in
     if Js.truthy d && Js.truthy (Js.get d "data")
        && Js.truthy (Js.get (Js.get d "data") "token")
     then write_sessionToken (Js.get (Js.get d "data") "token")
     else throw (PlainError (Text NO_VALID_TOKEN)))
    (fun error => throw error).

(** The function calls itself after a re-authentication; [fuel] bounds
    the depth of that recursion. *)
Fixpoint makeCaproverRequest (fuel : nat) (endpoint method : string)
         (data : Js.value) : M Js.value :=
  match fuel with
  | O => fun s => (OutOfFuel, s)
  | S fuel' =>
      try_catch
        (tok <- read_sessionToken ;;
         when (negb (Js.truthy tok) && negb (endpoint =? LOGIN_ENDPOINT)%string)
              authenticate ;;
         let url := (Js.toString (env_value (CAPROVER_URL env)) ++ endpoint)%string in
         headers <- getAuthHeaders ;;
         response <- axios DispatchCall dispatchValidateStatus
                           (mkRequest method url headers data) ;;
         if status response >=? 400
         then throw (PlainError
                       (RequestFailedWithStatus (status response) (body response)))
         else ret (body response))
        (fun error =>
           if status_is_401 error
           then authenticate ;;
                makeCaproverRequest fuel' endpoint method data
           else throw error)
  end.

End Executor.


(** ** Derived notions used to state the properties *)

(** The outbound calls made between two states of one run. *)
Definition new_events (before after : State) : list Event :=
  skipn (length (trace before)) (trace after).

Definition is_login (e : Event) : bool :=
  match site e with LoginCall => true | DispatchCall => false end.

Definition is_dispatch (e : Event) : bool :=
  match site e with LoginCall => false | DispatchCall => true end.

Definition logins (evs : list Event) : nat := length (filter is_login evs).

Definition dispatches (evs : list Event) : nat := length (filter is_dispatch evs).

(** A reply that is a response with status 401. *)
Definition is_401 (r : Reply) : bool :=
  match r with
  | Responded resp => status resp =? 401
  | NoResponse => false
  end.

(** What a login reply amounts to: the token [authenticate] stores, or the
    error it throws. *)
Definition login_outcome (r : Reply) : Outcome Js.value :=
  match settle defaultValidateStatus r with
  | Return resp =>
      let d := body resp in
      if Js.truthy d && Js.truthy (Js.get d "data")
         && Js.truthy (Js.get (Js.get d "data") "token")
      then Return (Js.get (Js.get d "data") "token")
      else Throw (PlainError (Text NO_VALID_TOKEN))
  | Throw e => Throw e
  | OutOfFuel => OutOfFuel
  end.

(** What a dispatch reply amounts to for the caller of
    [makeCaproverRequest] when no re-authentication takes place. *)
Definition dispatch_outcome (r : Reply) : Outcome Js.value :=
  match settle dispatchValidateStatus r with
  | Return resp =>
      if status resp >=? 400
      then Throw (PlainError (RequestFailedWithStatus (status resp) (body resp)))
      else Return (body resp)
  | Throw e => Throw e
  | OutOfFuel => OutOfFuel
  end.

(** The credential left by a sequence of outbound calls: each login that
    yields a token replaces it, nothing else touches it. *)
Fixpoint credential_after (tok : Js.value) (evs : list Event) : Js.value :=
  match evs with
  | [] => tok
  | e :: rest =>
      match site e, login_outcome (reply e) with
      | LoginCall, Return tok' => credential_after tok' rest
      | _, _ => credential_after tok rest
      end
  end.

(** The request [makeCaproverRequest] sends when [tok] is the stored
    credential. *)
Definition dispatched (env : Env) (tok : Js.value) (endpoint method : string)
           (data : Js.value) : Request :=
  mkRequest method
            (Js.toString (env_value (CAPROVER_URL env)) ++ endpoint)%string
            [("Content-Type", "application/json");
             ("Authorization", "Bearer " ++ Js.toString tok)]%string
            data.

(** The state after one outbound call that leaves [tok] as credential. *)
Definition called (upstream : Upstream) (at_site : Site) (req : Request)
           (tok : Js.value) (s : State) : State :=
  mkState tok (trace s ++ [mkEvent at_site req (upstream (trace s) req)]).

(** The runs of [makeCaproverRequest]: the outbound calls of one
    invocation, its outcome and the credential it leaves, from the
    credential it starts with. *)
Inductive Run (env : Env) (endpoint method : string) (data : Js.value)
          (tok : Js.value) : list Event -> Outcome Js.value -> Js.value -> Prop :=
| run_no_token :
    Js.truthy tok = false ->
    endpoint = LOGIN_ENDPOINT ->
    Run env endpoint method data tok
        [] (Throw (PlainError (Text NO_SESSION_TOKEN))) tok
| run_dispatch r :
    Js.truthy tok = true ->
    Run env endpoint method data tok
        [mkEvent DispatchCall (dispatched env tok endpoint method data) r]
        (dispatch_outcome r) tok
| run_login_failed r e :
    Js.truthy tok = false ->
    login_outcome r = Throw e ->
    is_401 r = false ->
    Run env endpoint method data tok
        [mkEvent LoginCall (loginRequest env) r] (Throw e) tok
| run_login_dispatch r tok' r' :
    Js.truthy tok = false ->
    login_outcome r = Return tok' ->
    Run env endpoint method data tok
        [mkEvent LoginCall (loginRequest env) r;
         mkEvent DispatchCall (dispatched env tok' endpoint method data) r']
        (dispatch_outcome r') tok'
| run_relogin_failed r r' e :
    Js.truthy tok = false ->
    is_401 r = true ->
    login_outcome r' = Throw e ->
    Run env endpoint method data tok
        [mkEvent LoginCall (loginRequest env) r;
         mkEvent LoginCall (loginRequest env) r']
        (Throw e) tok
| run_relogin_dispatch r r' tok' r'' :
    Js.truthy tok = false ->
    is_401 r = true ->
    login_outcome r' = Return tok' ->
    Run env endpoint method data tok
        [mkEvent LoginCall (loginRequest env) r;
         mkEvent LoginCall (loginRequest env) r';
         mkEvent DispatchCall (dispatched env tok' endpoint method data) r'']
        (dispatch_outcome r'') tok'.

(** ** The classification of responses in the words of the specification

    Section 4.2 of the specification: status < 300 is a success, status
    401 an authorization failure, any other status below 500 a client
    error and the rest a server error.  It is stated here only to be
    compared with what the program does. *)

Inductive Class : Type :=
| Success (b : Js.value)
| AuthFailure
| ClientError (status : Z) (b : Js.value)
| ServerError (status : Z) (b : Js.value).

Definition spec_classify (resp : Response) : Class :=
  if status resp <? 300 then Success (body resp)
  else if status resp =? 401 then AuthFailure
  else if status resp <? 500 then ClientError (status resp) (body resp)
  else ServerError (status resp) (body resp).

(** ** Concurrent invocations

    Node runs the program on one thread: an invocation runs without
    interruption until it awaits an outbound call, and while it waits
    other invocations run.  An invocation is modelled by the place where
    it is suspended, and a step either enters an invocation or delivers
    the reply to the call it awaits and runs it to its next await.  All
    invocations share the one [State]. *)

Module Concurrent.

(** The arguments of one invocation of [makeCaproverRequest]. *)
Record Call : Type := mkCall {
  endpoint : string;
  verb : string;
  payload : Js.value
}.

Inductive Task : Type :=
| Called (c : Call)                       (** invoked, not yet run *)
| AwaitAuthenticate (c : Call)            (** at [await authenticate()] in the try block *)
| AwaitAxios (c : Call) (req : Request)   (** at [await axios({...})] with [req] sent *)
| AwaitReauthenticate (c : Call)          (** at [await authenticate()] in the catch block *)
| Settled (o : Outcome Js.value).         (** returned or threw *)

Inductive Action : Type :=
| Enter (i : nat)
| Deliver (i : nat) (r : Reply).

Definition Config : Type := (State * list Task)%type.

(** The reply to an outbound call arrives: axios records it and settles. *)
Definition arrive (at_site : Site) (validateStatus : Z -> bool)
           (req : Request) (r : Reply) : M Response :=
  fun s =>
    (settle validateStatus r,
     mkState (sessionToken s) (trace s ++ [mkEvent at_site req r])).

Section Steps.

Variable env : Env.

(** [authenticate] from the arrival of the reply to its login call. *)
Definition authenticate_resumed (r : Reply) : M unit :=
  try_catch
    (response <- arrive LoginCall defaultValidateStatus (loginRequest env) r ;;
     let d := body response in
     if Js.truthy d && Js.truthy (Js.get d "data")
        && Js.truthy (Js.get (Js.get d "data") "token")
     then write_sessionToken (Js.get (Js.get d "data") "token")
     else throw (PlainError (Text NO_VALID_TOKEN)))
    (fun error => throw error).

(** The catch block up to its await. *)
Definition caught (c : Call) (error : Error) : Task :=
  if status_is_401 error then AwaitReauthenticate c
  else Settled (Throw error).

(** The try block from [getAuthHeaders()] to the await of the dispatch. *)
Definition send (c : Call) (s : State) : Task :=
  match getAuthHeaders s with
  | (Return headers, _) =>
      AwaitAxios c
        (mkRequest (verb c)
                   (Js.toString (env_value (CAPROVER_URL env)) ++ endpoint c)%string
                   headers (payload c))
  | (Throw error, _) => caught c error
  | (OutOfFuel, _) => Settled OutOfFuel
  end.

(** The function from its entry to its first await. *)
Definition enter (c : Call) (s : State) : Task :=
  if negb (Js.truthy (sessionToken s))
     && negb (endpoint c =? LOGIN_ENDPOINT)%string
  then AwaitAuthenticate c
  else send c s.

(** The reply [r] arrives for the call task [t] awaits. *)
Definition resume (t : Task) (r : Reply) (s : State) : option (Task * State) :=
  match t with
  | Called _ | Settled _ => None
  | AwaitAuthenticate c =>
      match authenticate_resumed r s with
      | (Return _, s') => Some (send c s', s')
      | (Throw error, s') => Some (caught c error, s')
      | (OutOfFuel, s') => Some (Settled OutOfFuel, s')
      end
  | AwaitAxios c req =>
      match (response <- arrive DispatchCall dispatchValidateStatus req r ;;
             if status response >=? 400
             then throw (PlainError
                           (RequestFailedWithStatus (status response)
                                                    (body response)))
             else ret (body response)) s with
      | (Return b, s') => Some (Settled (Return b), s')
      | (Throw error, s') => Some (caught c error, s')
      | (OutOfFuel, s') => Some (Settled OutOfFuel, s')
      end
  | AwaitReauthenticate c =>
      match authenticate_resumed r s with
      | (Return _, s') => Some (enter c s', s')
      | (Throw error, s') => Some (Settled (Throw error), s')
      | (OutOfFuel, s') => Some (Settled OutOfFuel, s')
      end
  end.

Fixpoint update (i : nat) (t : Task) (tasks : list Task) : list Task :=
  match tasks, i with
  | [], _ => []
  | _ :: rest, O => t :: rest
  | t' :: rest, S i' => t' :: update i' t rest
  end.

Definition step (a : Action) (cfg : Config) : option Config :=
  let (s, tasks) := cfg in
  match a with
  | Enter i =>
      match nth_error tasks i with
      | Some (Called c) => Some (s, update i (enter c s) tasks)
      | _ => None
      end
  | Deliver i r =>
      match nth_error tasks i with
      | Some t =>
          match resume t r s with
          | Some (t', s') => Some (s', update i t' tasks)
          | None => None
          end
      | None => None
      end
  end.

Fixpoint exec (schedule : list Action) (cfg : Config) : option Config :=
  match schedule with
  | [] => Some cfg
  | a :: rest =>
      match step a cfg with
      | Some cfg' => exec rest cfg'
      | None => None
      end
  end.

(** One invocation alone, every reply taken from [upstream] when the
    call is made. *)
Fixpoint alone (upstream : Upstream) (steps : nat) (t : Task) (s : State)
  : Task * State :=
  match steps with
  | O => (t, s)
  | S steps' =>
      match t with
      | Called c => alone upstream steps' (enter c s) s
      | AwaitAuthenticate _ | AwaitReauthenticate _ =>
          match resume t (upstream (trace s) (loginRequest env)) s with
          | Some (t', s') => alone upstream steps' t' s'
          | None => (t, s)
          end
      | AwaitAxios _ req =>
          match resume t (upstream (trace s) req) s with
          | Some (t', s') => alone upstream steps' t' s'
          | None => (t, s)
          end
      | Settled _ => (t, s)
      end
  end.

End Steps.

Definition login_in_flight (t : Task) : bool :=
  match t with
  | AwaitAuthenticate _ | AwaitReauthenticate _ => true
  | _ => false
  end.

Definition logins_in_flight (tasks : list Task) : nat :=
  length (filter login_in_flight tasks).

(** The [Authorization] headers of the dispatches of a trace, in order. *)
Definition bearers (evs : list Event) : list (option string) :=
  map (fun e => option_map snd
                  (find (fun h => (fst h =? "Authorization")%string)
                        (headers (request e))))
      (filter is_dispatch evs).

End Concurrent.

(** ** Concrete scenarios *)

Module Scenario.

Definition env : Env := mkEnv (Some "https://captain.example.org") (Some "secret").

Definition tokenBody (t : string) : Js.value :=
  Js.Obj [("status", Js.Num 100); ("data", Js.Obj [("token", Js.Str t)])].

Definition ok (b : Js.value) : Reply := Responded (mkResponse 200 b).

Definition unauthorized : Reply := Responded (mkResponse 401 (Js.Str "Unauthorized")).

(** An upstream that answers the calls in order from a script and lets
    every later call time out. *)
Definition scripted (script : list Reply) : Upstream :=
  fun history _ => nth (length history) script NoResponse.

(** An upstream that rejects every call with 401. *)
Definition rejecting : Upstream := fun _ _ => unauthorized.

Definition stored (t : string) : State := mkState (Js.Str t) [].

Definition fresh : State := mkState Js.Null [].

Definition apps : string := "/api/v2/user/apps".

Definition listApps : Concurrent.Call := Concurrent.mkCall apps "get" Js.Null.

(** The 401 reply, a login reply with token xyz, then the list of apps. *)
Definition expired_then_fresh : Upstream :=
  scripted [unauthorized; ok (tokenBody "xyz"); ok (Js.Str "apps")].

End Scenario.

(** ** The route handlers

    The handlers registered on the Express application.  A handler reads
    the request, calls [makeCaproverRequest] and writes to [res]; what it
    writes is recorded, and so is the exception it is left with when its
    catch block throws.  The texts of messages that the program does not
    build itself are taken from a [Runtime]. *)

Module Express.

(** [req.params] and [req.body]. *)
Record Req : Type := mkReq {
  params : Js.value;
  reqBody : Js.value
}.

(** One call of [res.json], with the status set before it. *)
Record Sent : Type := mkSent {
  code : Z;
  json : Js.value
}.

(** What a handler can be left with: an error thrown by the request
    helper, the [TypeError] of destructuring [null] or [undefined], or the
    [ReferenceError] of reading a name that is not in scope. *)
Inductive Exception : Type :=
| Raised (e : Error)
| TypeError (property : string)
| ReferenceError (name : string).

(** The texts made by axios and by the JavaScript engine. *)
Record Runtime : Type := mkRuntime {
  stringify : Js.value -> string;            (** [JSON.stringify(v)] in a template *)
  axios_message : option Response -> string; (** [error.message] of an axios error *)
  type_error_message : string -> string      (** [error.message] of a [TypeError] *)
}.

Inductive HOutcome (A : Type) : Type :=
| Value (a : A)
| Exc (x : Exception)
| Starved.

Arguments Value {A} a.
Arguments Exc {A} x.
Arguments Starved {A}.

(** The module state [app] of the program and the responses written. *)
Record Server (S : Type) : Type := mkServer {
  app : S;
  sent : list Sent
}.

Arguments mkServer {S} app sent.
Arguments app {S} s.
Arguments sent {S} s.

Definition H (S A : Type) : Type := Server S -> HOutcome A * Server S.

Definition h_ret {S A} (a : A) : H S A := fun srv => (Value a, srv).

Definition h_throw {S A} (x : Exception) : H S A := fun srv => (Exc x, srv).

Definition h_bind {S A B} (m : H S A) (k : A -> H S B) : H S B :=
  fun srv =>
    match m srv with
    | (Value a, srv') => k a srv'
    | (Exc x, srv') => (Exc x, srv')
    | (Starved, srv') => (Starved, srv')
    end.

(** [try { m } catch (error) { handler error }] *)
Definition h_try {S A} (m : H S A) (handler : Exception -> H S A) : H S A :=
  fun srv =>
    match m srv with
    | (Exc x, srv') => handler x srv'
    | r => r
    end.

(** [await m] for a call [m] of the request helper. *)
Definition await {S A} (m : S -> Outcome A * S) : H S A :=
  fun srv =>
    match m (app srv) with
    | (Return a, s') => (Value a, mkServer s' (sent srv))
    | (Throw e, s') => (Exc (Raised e), mkServer s' (sent srv))
    | (OutOfFuel, s') => (Starved, mkServer s' (sent srv))
    end.

(** [const { k } = v] *)
Definition destructure {S} (v : Js.value) (k : string) : H S Js.value :=
  match v with
  | Js.Undefined | Js.Null => h_throw (TypeError k)
  | _ => h_ret (Js.get v k)
  end.

(** Reading a name that no enclosing scope declares. *)
Definition out_of_scope {S} (name : string) : H S Js.value :=
  h_throw (ReferenceError name).

(** [res.status(code).json(v)]; [res.json(v)] is the case of 200. *)
Definition res_json {S} (code : Z) (v : Js.value) : H S unit :=
  fun srv => (Value tt, mkServer (app srv) (sent srv ++ [mkSent code v])).

(** A parameter that defaults to [null]: the default replaces [undefined]. *)
Definition or_null (v : Js.value) : Js.value :=
  match v with
  | Js.Undefined => Js.Null
  | _ => v
  end.

(** [a || b] *)
Definition or_else (a b : Js.value) : Js.value :=
  if Js.truthy a then a else b.

Definition NO_DETAILS : string := "No additional details available".

(** [error.response] of whatever was caught. *)
Definition exception_response (x : Exception) : option Response :=
  match x with
  | Raised e => response_of e
  | _ => None
  end.

(** [error.response?.data] *)
Definition response_data (x : Exception) : Js.value :=
  match exception_response x with
  | Some r => body r
  | None => Js.Undefined
  end.

(** [error.response?.status === 500] *)
Definition status_is_500 (x : Exception) : bool :=
  match exception_response x with
  | Some r => status r =? 500
  | None => false
  end.

Declare Scope handler_scope.
Delimit Scope handler_scope with handler.
Notation "x <- m ;; k" := (h_bind m (fun x => k))
  (at level 61, m at next level, right associativity) : handler_scope.
Notation "m ;; k" := (h_bind m (fun _ => k))
  (at level 61, right associativity) : handler_scope.

Section Messages.

Variable rt : Runtime.

(** [error.message] of an error of the request helpers. *)
Definition error_message (e : Error) : string :=
  match e with
  | AxiosError r => axios_message rt r
  | PlainError (Text s) => s
  | PlainError (RequestFailedWithStatus st d) =>
      "Request failed with status " ++ Js.string_of_Z st ++ ": " ++ stringify rt d
  end.

(** [error.message] of whatever was caught. *)
Definition message (x : Exception) : string :=
  match x with
  | Raised e => error_message e
  | TypeError k => type_error_message rt k
  | ReferenceError name => name ++ " is not defined"
  end.

End Messages.

End Express.

(** *** The handlers of the session-token variant *)

Module Routes.

Import Express.
Local Open Scope handler_scope.

Inductive Route : Type :=
| CreateApp          (** [POST /api/apps] *)
| ListApps           (** [GET /api/apps] *)
| GetApp             (** [GET /api/apps/:appName] *)
| UpdateApp          (** [PUT /api/apps/:appName] *)
| DeleteApp          (** [DELETE /api/apps/:appName] *)
| DeleteAppVolumes   (** [DELETE /api/apps/:appName/volumes] *)
| StopApp            (** [POST /api/apps/:appName/stop] *)
| ScaleApp           (** [POST /api/apps/:appName/scale] *)
| AddDomain          (** [POST /api/apps/:appName/domains] *)
| EnableSsl          (** [POST /api/apps/:appName/ssl] *)
| OneClick.          (** [POST /api/one-click-apps] *)

Section Handlers.

Variable env : Env.
Variable upstream : Upstream.
Variable rt : Runtime.
Variable NODE_ENV : option string.
Variable fuel : nat.

Definition request (endpoint method : string) (data : Js.value) : H State Js.value :=
  await (makeCaproverRequest env upstream fuel endpoint method (or_null data)).

(** [res.status(500).json({ error: error.message, details: ... })] *)
Definition answer_failure (error : Exception) : H State unit :=
  res_json 500
    (Js.Obj [("error", Js.Str (message rt error));
             ("details", or_else (response_data error) (Js.Str NO_DETAILS))]).

(** The catch blocks whose log line interpolates [appName], a constant of
    the try block that is not in scope in the catch block. *)
Definition answer_failure_naming_app (error : Exception) : H State unit :=
  _ <- out_of_scope "appName" ;;
  answer_failure error.

Definition createApp (req : Req) : H State unit :=
  h_try
    (appName <- destructure (reqBody req) "appName" ;;
     hasPersistentData <- destructure (reqBody req) "hasPersistentData" ;;
     response <- request "/api/v2/user/apps" "post"
                   (Js.Obj [("appName", appName);
                            ("hasPersistentData", hasPersistentData)]) ;;
     res_json 200 response)
    answer_failure.

Definition listApps (req : Req) : H State unit :=
  h_try
    (response <- request "/api/v2/user/apps/appDefinitions/list" "get"
                   Js.Undefined ;;
     res_json 200 response)
    answer_failure.

Definition getApp (req : Req) : H State unit :=
  h_try
    (appName <- destructure (params req) "appName" ;;
     response <- request ("/api/v2/user/apps/" ++ Js.toString appName) "get"
                   Js.Undefined ;;
     res_json 200 response)
    answer_failure_naming_app.

Definition updateApp (req : Req) : H State unit :=
  h_try
    (appName <- destructure (params req) "appName" ;;
     response <- request ("/api/v2/user/apps/" ++ Js.toString appName) "put"
                   (reqBody req) ;;
     res_json 200 response)
    answer_failure_naming_app.

Definition deleteApp (req : Req) : H State unit :=
  h_try
    (appName <- destructure (params req) "appName" ;;
     response <- request ("/api/v2/user/apps/" ++ Js.toString appName) "delete"
                   Js.Undefined ;;
     res_json 200 response)
    answer_failure_naming_app.

Definition deleteAppVolumes (req : Req) : H State unit :=
  h_try
    (appName <- destructure (params req) "appName" ;;
     response <- request ("/api/v2/user/apps/" ++ Js.toString appName
                          ++ "?deleteVolumes=true") "delete"
                   Js.Undefined ;;
     res_json 200 response)
    answer_failure_naming_app.

Definition stopApp (req : Req) : H State unit :=
  h_try
    (appName <- destructure (params req) "appName" ;;
     response <- request ("/api/v2/user/apps/" ++ Js.toString appName ++ "/stop")
                   "post" Js.Undefined ;;
     res_json 200 response)
    answer_failure_naming_app.

Definition scaleApp (req : Req) : H State unit :=
  h_try
    (appName <- destructure (params req) "appName" ;;
     instanceCount <- destructure (reqBody req) "instanceCount" ;;
     response <- request ("/api/v2/user/apps/" ++ Js.toString appName ++ "/scale")
                   "post" (Js.Obj [("instanceCount", instanceCount)]) ;;
     res_json 200 response)
    answer_failure_naming_app.

Definition addDomain (req : Req) : H State unit :=
  h_try
    (appName <- destructure (params req) "appName" ;;
     domain <- destructure (reqBody req) "domain" ;;
     response <- request ("/api/v2/user/apps/" ++ Js.toString appName ++ "/domains")
                   "post" (Js.Obj [("domain", domain)]) ;;
     res_json 200 response)
    answer_failure_naming_app.

Definition enableSsl (req : Req) : H State unit :=
  h_try
    (appName <- destructure (params req) "appName" ;;
     domain <- destructure (reqBody req) "domain" ;;
     response <- request ("/api/v2/user/apps/" ++ Js.toString appName ++ "/ssl")
                   "post" (Js.Obj [("domain", domain)]) ;;
     res_json 200 response)
    answer_failure_naming_app.

Definition oneClick (req : Req) : H State unit :=
  h_try
    (appName <- destructure (reqBody req) "appName" ;;
     templateName <- destructure (reqBody req) "templateName" ;;
     variables <- destructure (reqBody req) "variables" ;;
     response <- request "/api/v2/user/apps/one-click" "post"
                   (Js.Obj [("appName", appName);
                            ("templateName", templateName);
                            ("variables", variables)]) ;;
     res_json 200 response)
    answer_failure.

(** The routing table. *)
Definition handle (r : Route) : Req -> H State unit :=
  match r with
  | CreateApp => createApp
  | ListApps => listApps
  | GetApp => getApp
  | UpdateApp => updateApp
  | DeleteApp => deleteApp
  | DeleteAppVolumes => deleteAppVolumes
  | StopApp => stopApp
  | ScaleApp => scaleApp
  | AddDomain => addDomain
  | EnableSsl => enableSsl
  | OneClick => oneClick
  end.

(** Requests handled one after the other, each to its end. *)
Fixpoint serve (calls : list (Route * Req)) (srv : Server State) : Server State :=
  match calls with
  | [] => srv
  | (r, req) :: rest => serve rest (snd (handle r req srv))
  end.

(** [error.stack], of which nothing is known, is the text the runtime
    gives for it. *)
Variable stack : Exception -> string.

(** [GET /api/health] *)
Definition health (req : Req) : H State unit :=
  h_try
    (_ <- await (authenticate env upstream) ;;
     apps <- request "/api/v2/user/apps" "get" Js.Undefined ;;
     res_json 200
       (Js.Obj [("status", Js.Str "healthy");
                ("authenticated", Js.Bool true);
                ("apps", or_else apps (Js.Arr []))]))
    (fun error =>
       _ <- (if status_is_500 error
             then h_try
                    (_ <- request "/api/v2/version" "get" Js.Undefined ;;
                     h_ret tt)
                    (fun versionError => h_ret tt)
             else h_ret tt) ;;
       res_json 500
         (Js.Obj [("status", Js.Str "unhealthy");
                  ("error", Js.Str (message rt error));
                  ("details", or_else (response_data error) (Js.Str NO_DETAILS));
                  ("stack",
                   match NODE_ENV with
                   | Some mode =>
                       if (mode =? "development")%string
                       then Js.Str (stack error) else Js.Undefined
                   | None => Js.Undefined
                   end)])).

End Handlers.

(** The routes whose catch block names [appName]. *)
Definition names_app (r : Route) : bool :=
  match r with
  | CreateApp | ListApps | OneClick => false
  | _ => true
  end.

End Routes.

(** *** The variant that authenticates with the password header

    The second [index.js]: no session token is kept; every call carries
    the configured password in the header [x-captain-auth].  Its module
    state is the trace of outbound calls alone. *)

Module V1.

Import Express.
Local Open Scope handler_scope.

Inductive Route : Type :=
| CreateApp          (** [POST /api/apps] *)
| ListApps           (** [GET /api/apps] *)
| GetApp             (** [GET /api/apps/:appName] *)
| UpdateApp          (** [PUT /api/apps/:appName] *)
| DeleteApp          (** [DELETE /api/apps/:appName] *)
| DeleteAppVolumes   (** [DELETE /api/apps/:appName/volumes] *)
| StopApp            (** [POST /api/apps/:appName/stop] *)
| ScaleApp           (** [POST /api/apps/:appName/scale] *)
| AddDomain          (** [POST /api/apps/:appName/domains] *)
| EnableSsl          (** [POST /api/apps/:appName/ssl] *)
| OneClick.          (** [POST /api/one-click-apps] *)

Section Handlers.

Variable env : Env.
Variable upstream : Upstream.
Variable rt : Runtime.

(** [caproverConfig.headers]; a header whose value is [undefined] is not
    sent. *)
Definition configHeaders : list (string * string) :=
  [("Content-Type", "application/json"); ("x-namespace", "captain")]
  ++ match CAPROVER_PASSWORD env with
     | Some password => [("x-captain-auth", password)]
     | None => []
     end.

(** [error.response?.data?.message] *)
Definition upstream_message (error : Error) : Js.value :=
  match response_of error with
  | Some r =>
      match body r with
      | Js.Undefined | Js.Null => Js.Undefined
      | d => Js.get d "message"
      end
  | None => Js.Undefined
  end.

Definition makeCaproverRequest (endpoint method : string) (data : Js.value)
  : list Event -> Outcome Js.value * list Event :=
  fun history =>
    let req :=
      mkRequest method
                (Js.toString (env_value (CAPROVER_URL env)) ++ endpoint)%string
                configHeaders data in
    let r := upstream history req in
    (match settle defaultValidateStatus r with
     | Return response => Return (body response)
     | Throw error =>
         Throw (PlainError
                  (Text (Js.toString
                           (or_else (upstream_message error)
                                    (Js.Str (error_message rt error))))))
     | OutOfFuel => OutOfFuel
     end,
     history ++ [mkEvent DispatchCall req r]).

Definition request (endpoint method : string) (data : Js.value)
  : H (list Event) Js.value :=
  await (makeCaproverRequest endpoint method (or_null data)).

(** [res.status(500).json({ error: error.message })] *)
Definition answer_failure (error : Exception) : H (list Event) unit :=
  res_json 500 (Js.Obj [("error", Js.Str (message rt error))]).

(** [GET /api/health] *)
Definition health (req : Req) : H (list Event) unit :=
  h_try
    (dashboardInfo <- request "/api/v1/login" "post"
                        (Js.Obj [("password", env_value (CAPROVER_PASSWORD env))]) ;;
     apps <- request "/api/v1/user/apps" "get" Js.Undefined ;;
     res_json 200 (Js.Obj [("dashboardInfo", dashboardInfo); ("apps", apps)]))
    answer_failure.

Definition createApp (req : Req) : H (list Event) unit :=
  h_try
    (appName <- destructure (reqBody req) "appName" ;;
     hasPersistentData <- destructure (reqBody req) "hasPersistentData" ;;
     response <- request "/api/v1/user/apps/appDefinitions/register" "post"
                   (Js.Obj [("appName", appName);
                            ("hasPersistentData", hasPersistentData)]) ;;
     res_json 200 response)
    answer_failure.

Definition listApps (req : Req) : H (list Event) unit :=
  h_try
    (response <- request "/api/v1/user/apps/appDefinitions/get" "get"
                   Js.Undefined ;;
     res_json 200 response)
    answer_failure.

Definition getApp (req : Req) : H (list Event) unit :=
  h_try
    (appName <- destructure (params req) "appName" ;;
     response <- request ("/api/v1/user/apps/appDefinitions/get/"
                          ++ Js.toString appName) "get" Js.Undefined ;;
     res_json 200 response)
    answer_failure.

Definition updateApp (req : Req) : H (list Event) unit :=
  h_try
    (appName <- destructure (params req) "appName" ;;
     response <- request ("/api/v1/user/apps/appDefinitions/update/"
                          ++ Js.toString appName) "post" (reqBody req) ;;
     res_json 200 response)
    answer_failure.

Definition deleteApp (req : Req) : H (list Event) unit :=
  h_try
    (appName <- destructure (params req) "appName" ;;
     response <- request ("/api/v1/user/apps/appDefinitions/delete/"
                          ++ Js.toString appName) "post" Js.Undefined ;;
     res_json 200 response)
    answer_failure.

Definition deleteAppVolumes (req : Req) : H (list Event) unit :=
  h_try
    (appName <- destructure (params req) "appName" ;;
     response <- request ("/api/v1/user/apps/appDefinitions/delete/"
                          ++ Js.toString appName ++ "?deleteVolumes=true")
                   "post" Js.Undefined ;;
     res_json 200 response)
    answer_failure.

Definition stopApp (req : Req) : H (list Event) unit :=
  h_try
    (appName <- destructure (params req) "appName" ;;
     response <- request ("/api/v1/user/apps/appDefinitions/stop/"
                          ++ Js.toString appName) "post" Js.Undefined ;;
     res_json 200 response)
    answer_failure.

Definition scaleApp (req : Req) : H (list Event) unit :=
  h_try
    (appName <- destructure (params req) "appName" ;;
     instanceCount <- destructure (reqBody req) "instanceCount" ;;
     response <- request ("/api/v1/user/apps/appDefinitions/scale/"
                          ++ Js.toString appName) "post"
                   (Js.Obj [("instanceCount", instanceCount)]) ;;
     res_json 200 response)
    answer_failure.

Definition addDomain (req : Req) : H (list Event) unit :=
  h_try
    (appName <- destructure (params req) "appName" ;;
     domain <- destructure (reqBody req) "domain" ;;
     response <- request ("/api/v1/user/apps/appDefinitions/customdomain/"
                          ++ Js.toString appName) "post"
                   (Js.Obj [("domain", domain)]) ;;
     res_json 200 response)
    answer_failure.

Definition enableSsl (req : Req) : H (list Event) unit :=
  h_try
    (appName <- destructure (params req) "appName" ;;
     domain <- destructure (reqBody req) "domain" ;;
     response <- request ("/api/v1/user/apps/appDefinitions/enablessl/"
                          ++ Js.toString appName) "post"
                   (Js.Obj [("domain", domain)]) ;;
     res_json 200 response)
    answer_failure.

Definition oneClick (req : Req) : H (list Event) unit :=
  h_try
    (appName <- destructure (reqBody req) "appName" ;;
     templateName <- destructure (reqBody req) "templateName" ;;
     variables <- destructure (reqBody req) "variables" ;;
     response <- request "/api/v1/user/apps/oneclick/secure" "post"
                   (Js.Obj [("appName", appName);
                            ("templateName", templateName);
                            ("variables", variables)]) ;;
     res_json 200 response)
    answer_failure.

(** The routing table. *)
Definition handle (r : Route) : Req -> H (list Event) unit :=
  match r with
  | CreateApp => createApp
  | ListApps => listApps
  | GetApp => getApp
  | UpdateApp => updateApp
  | DeleteApp => deleteApp
  | DeleteAppVolumes => deleteAppVolumes
  | StopApp => stopApp
  | ScaleApp => scaleApp
  | AddDomain => addDomain
  | EnableSsl => enableSsl
  | OneClick => oneClick
  end.

End Handlers.

End V1.

(** An upstream that refuses whatever it is sent: every reply has a status
    of 400 or more, or there is no reply. *)
Definition refusing (up : Upstream) : Prop :=
  forall history q,
    match up history q with
    | Responded resp => 400 <= status resp
    | NoResponse => True
    end.

(** Sample texts and requests for the scenarios of the handlers; the texts
    stand in for those of axios and of the engine. *)
Module Sample.

Definition rt : Express.Runtime :=
  Express.mkRuntime
    Js.toString
    (fun r => match r with
              | Some resp => ("Request failed with status code "
                              ++ Js.string_of_Z (status resp))%string
              | None => "Network Error"
              end)
    (fun k => ("Cannot destructure property '" ++ k ++ "'")%string).

Definition named (appName : string) (b : Js.value) : Express.Req :=
  Express.mkReq (Js.Obj [("appName", Js.Str appName)]) b.

Definition server (s : State) : Express.Server State := Express.mkServer s [].

Definition stack (x : Express.Exception) : string := "Error: at index.js".

(** An upstream that knows no app. *)
Definition notFound : Response := mkResponse 404 (Js.Str "Not Found").

Definition missing : Upstream := fun _ _ => Responded notFound.

(** An upstream that refuses the app name with a message of its own. *)
Definition refused : Response :=
  mkResponse 400 (Js.Obj [("message", Js.Str "App name is not allowed")]).

Definition refusingName : Upstream := fun _ _ => Responded refused.

Definition broken : Response := mkResponse 500 (Js.Str "Internal Server Error").

Definition history (events : list Event) : Express.Server (list Event) :=
  Express.mkServer events [].

End Sample.

(** * Properties *)

Section ExecutorFacts.

Variable env : Env.
Variable upstream : Upstream.

Lemma new_events_app (s s' : State) (evs : list Event) :
  trace s' = trace s ++ evs -> new_events s s' = evs.
Proof.
  unfold new_events. intros ->.
  rewrite skipn_app, Nat.sub_diag, skipn_all. reflexivity.
Qed.

Lemma new_events_refl (s : State) : new_events s s = [].
Proof. apply new_events_app. now rewrite app_nil_r. Qed.

Lemma login_outcome_truthy (r : Reply) (tok : Js.value) :
  login_outcome r = Return tok -> Js.truthy tok = true.
Proof.
  unfold login_outcome.
  destruct (settle defaultValidateStatus r) as [resp|e|]; try discriminate.
  cbv zeta.
  destruct (Js.truthy (body resp) && Js.truthy (Js.get (body resp) "data")
            && Js.truthy (Js.get (Js.get (body resp) "data") "token")) eqn:E;
    try discriminate.
  intros [= <-]. now apply andb_true_iff in E.
Qed.

Lemma login_outcome_fuel (r : Reply) : login_outcome r <> OutOfFuel.
Proof.
  unfold login_outcome, settle. destruct r as [resp|]; try discriminate.
  destruct (defaultValidateStatus (status resp)); try discriminate.
  cbv zeta.
  now destruct (Js.truthy (body resp) && Js.truthy (Js.get (body resp) "data")
                && Js.truthy (Js.get (Js.get (body resp) "data") "token")).
Qed.

(** A login error carries a 401 response exactly when the reply is one. *)
Lemma login_outcome_401 (r : Reply) (e : Error) :
  login_outcome r = Throw e -> status_is_401 e = is_401 r.
Proof.
  unfold login_outcome, settle, is_401. destruct r as [resp|].
  - destruct (defaultValidateStatus (status resp)) eqn:V.
    + cbv zeta.
      destruct (Js.truthy (body resp) && Js.truthy (Js.get (body resp) "data")
                && Js.truthy (Js.get (Js.get (body resp) "data") "token"));
        try discriminate.
      intros [= <-]. unfold status_is_401. simpl. symmetry.
      unfold defaultValidateStatus in V. lia.
    + intros [= <-]. reflexivity.
  - intros [= <-]. reflexivity.
Qed.

(** The validated range of a dispatch contains 401, so an error of a
    dispatch never carries a 401 response. *)
Lemma dispatch_outcome_not_401 (r : Reply) (e : Error) :
  dispatch_outcome r = Throw e -> status_is_401 e = false.
Proof.
  unfold dispatch_outcome, settle. destruct r as [resp|].
  - destruct (dispatchValidateStatus (status resp)) eqn:V.
    + destruct (status resp >=? 400); try discriminate.
      intros [= <-]. reflexivity.
    + intros [= <-]. unfold status_is_401. simpl.
      unfold dispatchValidateStatus in V. lia.
  - intros [= <-]. reflexivity.
Qed.

Lemma dispatch_outcome_fuel (r : Reply) : dispatch_outcome r <> OutOfFuel.
Proof.
  unfold dispatch_outcome, settle. destruct r as [resp|]; try discriminate.
  destruct (dispatchValidateStatus (status resp)); try discriminate.
  now destruct (status resp >=? 400).
Qed.

(** [authenticate] makes one login call; it stores the token of a good
    reply and otherwise rethrows, leaving the credential alone. *)
Lemma authenticate_eq (s : State) :
  authenticate env upstream s =
  match login_outcome (upstream (trace s) (loginRequest env)) with
  | Return tok =>
      (Return tt, called upstream LoginCall (loginRequest env) tok s)
  | Throw e =>
      (Throw e, called upstream LoginCall (loginRequest env) (sessionToken s) s)
  | OutOfFuel =>
      (OutOfFuel, called upstream LoginCall (loginRequest env) (sessionToken s) s)
  end.
Proof.
  unfold authenticate, try_catch, bind, axios, login_outcome, called.
  destruct (settle defaultValidateStatus (upstream (trace s) (loginRequest env)))
    as [resp|e|]; try reflexivity.
  cbv zeta.
  now destruct (Js.truthy (body resp) && Js.truthy (Js.get (body resp) "data")
                && Js.truthy (Js.get (Js.get (body resp) "data") "token")).
Qed.

(** With a credential in place the function makes one dispatch and
    nothing else. *)
Lemma makeCaproverRequest_stored (fuel : nat) (endpoint method : string)
      (data : Js.value) (s : State) :
  Js.truthy (sessionToken s) = true ->
  makeCaproverRequest env upstream (S fuel) endpoint method data s =
  let req := dispatched env (sessionToken s) endpoint method data in
  (dispatch_outcome (upstream (trace s) req),
   called upstream DispatchCall req (sessionToken s) s).
Proof.
  intros T. cbv zeta.
  pose proof (dispatch_outcome_not_401
                (upstream (trace s)
                          (dispatched env (sessionToken s) endpoint method data))) as N.
  cbn [makeCaproverRequest].
  unfold try_catch, bind, read_sessionToken, when, getAuthHeaders, bind,
    read_sessionToken, axios, called, dispatched, throw, ret.
  repeat (rewrite T; cbn [negb andb fst snd sessionToken trace]).
  unfold dispatch_outcome in *.
  destruct (settle dispatchValidateStatus _) as [resp|e|]; try reflexivity.
  - now destruct (status resp >=? 400).
  - now rewrite (N _ eq_refl).
Qed.

(** On the login endpoint with no credential nothing is sent. *)
Lemma makeCaproverRequest_login_unset (fuel : nat) (method : string)
      (data : Js.value) (s : State) :
  Js.truthy (sessionToken s) = false ->
  makeCaproverRequest env upstream (S fuel) LOGIN_ENDPOINT method data s =
  (Throw (PlainError (Text NO_SESSION_TOKEN)), s).
Proof.
  intros T. cbn [makeCaproverRequest].
  unfold try_catch, bind, read_sessionToken, when, getAuthHeaders, bind,
    read_sessionToken, throw, ret.
  rewrite String.eqb_refl.
  repeat (rewrite T; cbn [negb andb fst snd sessionToken trace]).
  reflexivity.
Qed.

(** On any other endpoint with no credential the function logs in first;
    a login answered with 401 is followed by a second login and, if that
    one yields a token, by a call of the function to itself. *)
Lemma makeCaproverRequest_unset (fuel : nat) (endpoint method : string)
      (data : Js.value) (s : State) :
  Js.truthy (sessionToken s) = false ->
  (endpoint =? LOGIN_ENDPOINT)%string = false ->
  makeCaproverRequest env upstream (S fuel) endpoint method data s =
  let login := loginRequest env in
  let s1 := called upstream LoginCall login (sessionToken s) s in
  match login_outcome (upstream (trace s) login) with
  | Return tok =>
      let s1' := called upstream LoginCall login tok s in
      let req := dispatched env tok endpoint method data in
      (dispatch_outcome (upstream (trace s1') req),
       called upstream DispatchCall req tok s1')
  | Throw e =>
      if status_is_401 e then
        match login_outcome (upstream (trace s1) login) with
        | Return tok =>
            makeCaproverRequest env upstream fuel endpoint method data
                                (called upstream LoginCall login tok s1)
        | Throw e' => (Throw e', called upstream LoginCall login (sessionToken s) s1)
        | OutOfFuel => (OutOfFuel, called upstream LoginCall login (sessionToken s) s1)
        end
      else (Throw e, s1)
  | OutOfFuel => (OutOfFuel, s1)
  end.
Proof.
  intros T L. cbv zeta. cbn [makeCaproverRequest].
  unfold try_catch at 1. unfold bind at 1. unfold read_sessionToken at 1.
  unfold bind at 1. rewrite T, L. cbn [negb andb when].
  rewrite authenticate_eq.
  destruct (login_outcome (upstream (trace s) (loginRequest env)))
    as [tok|e|] eqn:E.
  - pose proof (login_outcome_truthy _ _ E) as T'.
    pose proof (dispatch_outcome_not_401
                  (upstream (trace (called upstream LoginCall (loginRequest env) tok s))
                            (dispatched env tok endpoint method data))) as N.
    unfold bind, getAuthHeaders, bind, read_sessionToken, axios, throw, ret.
    cbn [called sessionToken trace fst snd] in *.
    repeat (rewrite T'; cbn [negb andb fst snd sessionToken trace]).
    unfold dispatch_outcome, dispatched, called in *.
    cbn [sessionToken trace] in *.
    destruct (settle dispatchValidateStatus _) as [resp|e|]; try reflexivity.
    + now destruct (status resp >=? 400).
    + now rewrite (N _ eq_refl).
  - destruct (status_is_401 e); [|reflexivity].
    unfold bind at 1. rewrite authenticate_eq.
    cbn [called sessionToken trace].
    match goal with
    | |- context [login_outcome ?r] => now destruct (login_outcome r)
    end.
  - now destruct (login_outcome_fuel _ E).
Qed.

(** Two units of fuel are enough: every invocation is one of the six
    runs. *)
Lemma makeCaproverRequest_run (fuel : nat) (endpoint method : string)
      (data : Js.value) (s : State) :
  exists evs o tok',
    makeCaproverRequest env upstream (S (S fuel)) endpoint method data s
    = (o, mkState tok' (trace s ++ evs)) /\
    Run env endpoint method data (sessionToken s) evs o tok'.
Proof.
  destruct (Js.truthy (sessionToken s)) eqn:T.
  - rewrite makeCaproverRequest_stored by assumption.
    eexists _, _, _. split; [reflexivity|]. now constructor.
  - destruct (endpoint =? LOGIN_ENDPOINT)%string eqn:L.
    + apply String.eqb_eq in L. subst endpoint.
      rewrite makeCaproverRequest_login_unset by assumption.
      exists [], (Throw (PlainError (Text NO_SESSION_TOKEN))), (sessionToken s).
      split; [destruct s; cbn; now rewrite app_nil_r | now constructor].
    + rewrite makeCaproverRequest_unset by assumption. cbv zeta.
      destruct (login_outcome (upstream (trace s) (loginRequest env)))
        as [tok|e|] eqn:E.
      * eexists _, _, _. split.
        -- unfold called. cbn [trace sessionToken]. rewrite <- app_assoc.
           reflexivity.
        -- now apply run_login_dispatch.
      * pose proof (login_outcome_401 _ _ E) as E1.
        destruct (status_is_401 e).
        -- match goal with
           | |- context [match login_outcome ?r with _ => _ end] =>
               destruct (login_outcome r) as [tok'|e'|] eqn:E'
           end.
           ++ rewrite makeCaproverRequest_stored
                by (cbn; eauto using login_outcome_truthy).
              eexists _, _, _. split.
              ** unfold called. cbn [trace sessionToken].
                 rewrite <- !app_assoc. reflexivity.
              ** cbn [app]. now apply run_relogin_dispatch.
           ++ eexists _, _, _. split.
              ** unfold called. cbn [trace sessionToken].
                 rewrite <- app_assoc. reflexivity.
              ** now apply run_relogin_failed.
           ++ now destruct (login_outcome_fuel _ E').
        -- eexists _, _, _. split; [reflexivity|].
           now apply run_login_failed.
      * now destruct (login_outcome_fuel _ E).
Qed.

(** The credential a run leaves is the one its logins wrote. *)
Lemma Run_credential (endpoint method : string) (data : Js.value)
      (tok : Js.value) (evs : list Event) (o : Outcome Js.value)
      (tok' : Js.value) :
  Run env endpoint method data tok evs o tok' ->
  tok' = credential_after tok evs.
Proof.
  intros R. destruct R; cbn; try reflexivity.
  - match goal with H : login_outcome _ = Throw _ |- _ => now rewrite H end.
  - match goal with H : login_outcome _ = Return _ |- _ => now rewrite H end.
  - destruct (login_outcome r) as [t|e0|] eqn:E.
    + exfalso. unfold login_outcome, settle, is_401 in *.
      destruct r as [resp|]; try discriminate.
      unfold defaultValidateStatus in E.
      destruct ((200 <=? status resp) && (status resp <? 300)) eqn:V;
        [lia | discriminate].
    + match goal with H : login_outcome r' = _ |- _ => now rewrite H end.
    + now destruct (login_outcome_fuel _ E).
  - destruct (login_outcome r) as [t|e0|] eqn:E.
    + exfalso. unfold login_outcome, settle, is_401 in *.
      destruct r as [resp|]; try discriminate.
      unfold defaultValidateStatus in E.
      destruct ((200 <=? status resp) && (status resp <? 300)) eqn:V;
        [lia | discriminate].
    + match goal with H : login_outcome r' = _ |- _ => now rewrite H end.
    + now destruct (login_outcome_fuel _ E).
Qed.

Lemma Run_fuel (endpoint method : string) (data : Js.value)
      (tok : Js.value) (evs : list Event) (o : Outcome Js.value)
      (tok' : Js.value) :
  Run env endpoint method data tok evs o tok' -> o <> OutOfFuel.
Proof.
  intros R. destruct R; try discriminate; apply dispatch_outcome_fuel.
Qed.

(** An outbound call that gets no response is the last call of its run,
    and the run throws the transport error. *)
Lemma Run_transport (endpoint method : string) (data : Js.value)
      (tok : Js.value) (evs : list Event) (o : Outcome Js.value)
      (tok' : Js.value) (pre post : list Event) (e : Event) :
  Run env endpoint method data tok evs o tok' ->
  evs = pre ++ e :: post ->
  reply e = NoResponse ->
  post = [] /\ o = Throw (AxiosError None).
Proof.
  intros R E N.
  destruct R;
    destruct pre as [|x1 [|x2 [|x3 [|x4 pre]]]]; cbn in E; try discriminate;
    injection E as <-; subst; cbn in N; subst;
    repeat match goal with
           | H : _ :: _ = _ :: _ |- _ => injection H as <-
           | H : [] = _ :: _ |- _ => discriminate H
           | H : _ :: _ = [] |- _ => discriminate H
           | H : [] = _ ++ _ :: _ |- _ => now destruct pre
           end; subst; cbn in *; subst;
    try discriminate; try (split; [reflexivity|]; try reflexivity; congruence).
Qed.

Lemma Run_calls (endpoint method : string) (data : Js.value)
      (tok : Js.value) (evs : list Event) (o : Outcome Js.value)
      (tok' : Js.value) :
  Run env endpoint method data tok evs o tok' ->
  (logins evs <= 2)%nat /\ (dispatches evs <= 1)%nat.
Proof. intros R. destruct R; cbn; lia. Qed.

End ExecutorFacts.

Section Properties.

Variable env : Env.
Variable upstream : Upstream.

(** C1, at the failing input.  A credential is stored and the first
    dispatch is answered with status 401: the function makes that single
    dispatch, makes no login, keeps the credential and throws the plain
    request-failed error; there is no second attempt. *)
Theorem dispatch_401_not_retried (fuel : nat) (endpoint method : string)
        (data : Js.value) (s : State) (b : Js.value) :
  Js.truthy (sessionToken s) = true ->
  upstream (trace s) (dispatched env (sessionToken s) endpoint method data)
  = Responded (mkResponse 401 b) ->
  let (o, s') :=
    makeCaproverRequest env upstream (S fuel) endpoint method data s in
  o = Throw (PlainError (RequestFailedWithStatus 401 b)) /\
  sessionToken s' = sessionToken s /\
  dispatches (new_events s s') = 1%nat /\
  logins (new_events s s') = 0%nat.
Proof.
  intros T R. rewrite makeCaproverRequest_stored by assumption. cbv zeta.
  rewrite R. split; [reflexivity|]. split; [reflexivity|].
  erewrite new_events_app by reflexivity. split; reflexivity.
Qed.

(** C2, at the failing input.  A credential is stored and the upstream
    answers every call with status 401: the function still makes one
    dispatch only and no login at all, and throws the plain
    request-failed error, where the claim expects a second dispatch after
    one refresh login. *)
Theorem rejected_everywhere_one_dispatch (fuel : nat) (endpoint method : string)
        (data : Js.value) (s : State) :
  Js.truthy (sessionToken s) = true ->
  (forall history req, is_401 (upstream history req) = true) ->
  let (o, s') :=
    makeCaproverRequest env upstream (S fuel) endpoint method data s in
  (exists b, o = Throw (PlainError (RequestFailedWithStatus 401 b))) /\
  dispatches (new_events s s') = 1%nat /\
  logins (new_events s s') = 0%nat.
Proof.
  intros T R. rewrite makeCaproverRequest_stored by assumption. cbv zeta.
  specialize (R (trace s) (dispatched env (sessionToken s) endpoint method data)).
  destruct (upstream _ _) as [[st b]|]; cbn in R; [|discriminate].
  apply Z.eqb_eq in R. subst st.
  split; [now exists b|].
  erewrite new_events_app by reflexivity. split; reflexivity.
Qed.

(** C3, amended.  On a call to a non-login endpoint made while no
    credential is stored, a login is the first outbound call.  When it
    yields a token, the call is dispatched right after that one login with
    the header [Authorization: Bearer <token>] built from the stored
    token.  When it is answered with status 401 a second login is made
    before any dispatch, and a token it yields is the one attached.  Any
    other login failure ends the invocation after the one login. *)
Theorem unset_credential_login_first (fuel : nat) (endpoint method : string)
        (data : Js.value) (s : State) :
  Js.truthy (sessionToken s) = false ->
  endpoint <> LOGIN_ENDPOINT ->
  let login := mkEvent LoginCall (loginRequest env) in
  let dispatch tok :=
    mkEvent DispatchCall
            (mkRequest method
                       (Js.toString (env_value (CAPROVER_URL env)) ++ endpoint)%string
                       [("Content-Type", "application/json");
                        ("Authorization", "Bearer " ++ Js.toString tok)]%string
                       data) in
  let r := upstream (trace s) (loginRequest env) in
  let (o, s') :=
    makeCaproverRequest env upstream (S (S fuel)) endpoint method data s in
  match login_outcome r with
  | Return tok =>
      exists r', new_events s s' = [login r; dispatch tok r'] /\
                 sessionToken s' = tok /\ Js.truthy tok = true
  | Throw e =>
      if is_401 r then
        exists r2,
          match login_outcome r2 with
          | Return tok =>
              exists r', new_events s s' = [login r; login r2; dispatch tok r'] /\
                         sessionToken s' = tok /\ Js.truthy tok = true
          | _ => new_events s s' = [login r; login r2] /\
                 sessionToken s' = sessionToken s
          end
      else new_events s s' = [login r] /\ o = Throw e /\
           sessionToken s' = sessionToken s
  | OutOfFuel => False
  end.
Proof.
  intros T L. apply String.eqb_neq in L. cbv zeta.
  rewrite makeCaproverRequest_unset by assumption. cbv zeta.
  destruct (login_outcome (upstream (trace s) (loginRequest env)))
    as [tok|e|] eqn:E.
  - eexists. split; [|split; [reflexivity | eauto using login_outcome_truthy]].
    apply new_events_app. unfold called. cbn [trace].
    now rewrite <- app_assoc.
  - rewrite (login_outcome_401 _ _ E).
    destruct (is_401 (upstream (trace s) (loginRequest env))).
    + match goal with
      | |- context [match login_outcome ?r with _ => _ end] =>
          remember r as r2 eqn:R2;
          destruct (login_outcome r2) as [tok'|e'|] eqn:E'
      end.
      * rewrite makeCaproverRequest_stored
          by (cbn; eauto using login_outcome_truthy).
        exists r2. rewrite E'. eexists.
        split; [|split; [reflexivity | eauto using login_outcome_truthy]].
        apply new_events_app. unfold called. cbn [trace].
        rewrite <- !app_assoc. now subst r2.
      * exists r2. rewrite E'. split; [|reflexivity].
        apply new_events_app. unfold called. cbn [trace].
        rewrite <- app_assoc. now subst r2.
      * now destruct (login_outcome_fuel _ E').
    + split; [|split; reflexivity]. now apply new_events_app.
  - now destruct (login_outcome_fuel _ E).
Qed.

(** C4.  When the login endpoint answers with a 2xx response,
    [authenticate] makes that one login call and, if the body holds a token
    at [data.data.token], stores exactly that token as the credential; if
    the field is absent (reading it gives [undefined]) or holds a falsy
    value, it throws the no-valid-token error and the credential stays
    what it was. *)
Theorem authenticate_token (s : State) (resp : Response) :
  upstream (trace s) (loginRequest env) = Responded resp ->
  200 <= status resp < 300 ->
  let tok := Js.get (Js.get (body resp) "data") "token" in
  let (o, s') := authenticate env upstream s in
  new_events s s' = [mkEvent LoginCall (loginRequest env) (Responded resp)] /\
  (Js.truthy tok = true -> o = Return tt /\ sessionToken s' = tok) /\
  (tok = Js.Undefined \/ Js.truthy tok = false ->
   o = Throw (PlainError (Text NO_VALID_TOKEN)) /\
   sessionToken s' = sessionToken s).
Proof.
  intros R V. cbv zeta. rewrite authenticate_eq, R.
  unfold login_outcome, settle, defaultValidateStatus.
  replace ((200 <=? status resp) && (status resp <? 300)) with true by lia.
  cbv zeta.
  destruct (Js.truthy (Js.get (Js.get (body resp) "data") "token")) eqn:K.
  - assert (Js.truthy (body resp) = true /\
            Js.truthy (Js.get (body resp) "data") = true) as [-> ->].
    { destruct (body resp); try discriminate. split; [reflexivity|].
      cbn in *. destruct (Js.lookup "data" fields); try discriminate.
      reflexivity. }
    cbn [andb]. rewrite <- R.
    split; [now apply new_events_app|]. split; [now split|].
    intros [U|U]; [now rewrite U in K | discriminate].
  - rewrite !andb_false_r, <- R.
    split; [now apply new_events_app|]. split; [discriminate | now split].
Qed.

(** C5, amended.  With a credential stored, a response with
    200 <= status < 400 makes the call succeed with the body; a response
    with 400 <= status < 500 other than 401 makes it throw a plain error
    built from the status and the body; and axios resolves every response
    with 200 <= status < 500 to the raw response instead of rejecting it. *)
Theorem dispatch_classification (fuel : nat) (endpoint method : string)
        (data : Js.value) (s : State) (resp : Response) :
  Js.truthy (sessionToken s) = true ->
  upstream (trace s) (dispatched env (sessionToken s) endpoint method data)
  = Responded resp ->
  let o := fst (makeCaproverRequest env upstream (S fuel) endpoint method data s) in
  (200 <= status resp < 400 -> o = Return (body resp)) /\
  (400 <= status resp < 500 -> status resp <> 401 ->
   o = Throw (PlainError (RequestFailedWithStatus (status resp) (body resp)))) /\
  (200 <= status resp < 500 ->
   settle dispatchValidateStatus (Responded resp) = Return resp).
Proof.
  intros T R. rewrite makeCaproverRequest_stored by assumption. cbv zeta.
  rewrite R. unfold dispatch_outcome, settle, dispatchValidateStatus. cbn [fst].
  repeat split; intros;
    replace ((200 <=? status resp) && (status resp <? 500)) with true by lia;
    try reflexivity.
  - now replace (status resp >=? 400) with false by lia.
  - now replace (status resp >=? 400) with true by lia.
Qed.

(** C6.  In every invocation an outbound call that gets no response is
    the last outbound call made: no login and no dispatch follows it, and
    the invocation throws that transport error to the caller. *)
Theorem transport_error_is_final (fuel : nat) (endpoint method : string)
        (data : Js.value) (s : State) (pre post : list Event) (e : Event) :
  let (o, s') :=
    makeCaproverRequest env upstream (S (S fuel)) endpoint method data s in
  new_events s s' = pre ++ e :: post ->
  reply e = NoResponse ->
  post = [] /\ logins post = 0%nat /\ o = Throw (AxiosError None).
Proof.
  destruct (makeCaproverRequest_run env upstream fuel endpoint method data s)
    as (evs & o & tok' & -> & R).
  erewrite new_events_app by reflexivity.
  intros E N. destruct (Run_transport _ _ _ _ _ _ _ _ _ _ _ R E N) as [-> ->].
  repeat split.
Qed.

(** C7.  With a credential stored, a 404 or a 500 response to the
    dispatch is thrown to the caller with its status and body (the 404 in
    the plain request-failed error, the 500 as the axios error holding the
    response); the error does not count as a 401, no login is made and
    the credential is what it was. *)
Theorem upstream_error_passes_through (fuel : nat) (endpoint method : string)
        (data : Js.value) (s : State) (resp : Response) :
  Js.truthy (sessionToken s) = true ->
  upstream (trace s) (dispatched env (sessionToken s) endpoint method data)
  = Responded resp ->
  status resp = 404 \/ status resp = 500 ->
  let (o, s') :=
    makeCaproverRequest env upstream (S fuel) endpoint method data s in
  (status resp = 404 ->
   o = Throw (PlainError (RequestFailedWithStatus 404 (body resp)))) /\
  (status resp = 500 -> o = Throw (AxiosError (Some resp))) /\
  (forall err, o = Throw err -> status_is_401 err = false) /\
  sessionToken s' = sessionToken s /\
  logins (new_events s s') = 0%nat /\
  dispatches (new_events s s') = 1%nat.
Proof.
  intros T R V. rewrite makeCaproverRequest_stored by assumption. cbv zeta.
  rewrite R. erewrite new_events_app by reflexivity.
  repeat split.
  - intros E. unfold dispatch_outcome, settle, dispatchValidateStatus.
    rewrite E. cbn. now rewrite E.
  - intros E. unfold dispatch_outcome, settle, dispatchValidateStatus.
    now rewrite E.
  - intros err. apply dispatch_outcome_not_401.
Qed.

(** C8.  The state holds one credential.  Building the headers changes
    nothing; an outbound call leaves the credential alone; [authenticate]
    either stores the token of its login reply or leaves the credential
    alone; and after any invocation of [makeCaproverRequest] the
    credential is the token of the last login that yielded one, or the
    old credential when no login did: only logins write it, and a write
    puts the new value in place of the old one. *)
Theorem credential_single_writer (fuel : nat) (endpoint method : string)
        (data : Js.value) (s : State) :
  snd (getAuthHeaders s) = s /\
  (forall at_site validate req,
      sessionToken (snd (axios upstream at_site validate req s)) = sessionToken s) /\
  (forall v, sessionToken (snd (write_sessionToken v s)) = v) /\
  (let s' := snd (authenticate env upstream s) in
   sessionToken s' = credential_after (sessionToken s) (new_events s s')) /\
  (let s' := snd (makeCaproverRequest env upstream (S (S fuel))
                                      endpoint method data s) in
   sessionToken s' = credential_after (sessionToken s) (new_events s s') /\
   (logins (new_events s s') = 0%nat -> sessionToken s' = sessionToken s)).
Proof.
  split; [|split; [|split; [|split]]].
  - unfold getAuthHeaders, bind, read_sessionToken, throw, ret.
    now destruct (negb (Js.truthy (sessionToken s))).
  - reflexivity.
  - reflexivity.
  - cbv zeta. rewrite authenticate_eq.
    destruct (login_outcome (upstream (trace s) (loginRequest env))) eqn:E;
      cbn [snd]; erewrite new_events_app by reflexivity; cbn; now rewrite E.
  - cbv zeta.
    destruct (makeCaproverRequest_run env upstream fuel endpoint method data s)
      as (evs & o & tok' & -> & R).
    cbn [snd]. erewrite new_events_app by reflexivity. cbn [sessionToken].
    split; [eapply Run_credential; eassumption|].
    destruct R; cbn; intros; try reflexivity; discriminate.
Qed.

(** C10.  On the login endpoint with no credential stored the function
    throws the no-session-token error; no outbound call is made and the
    state is what it was. *)
Theorem login_endpoint_needs_token (fuel : nat) (method : string)
        (data : Js.value) (s : State) :
  Js.truthy (sessionToken s) = false ->
  let (o, s') :=
    makeCaproverRequest env upstream (S fuel) LOGIN_ENDPOINT method data s in
  o = Throw (PlainError (Text NO_SESSION_TOKEN)) /\
  s' = s /\ new_events s s' = [].
Proof.
  intros T. rewrite makeCaproverRequest_login_unset by assumption.
  repeat split. apply new_events_refl.
Qed.

(** The recursion of [makeCaproverRequest] stops: with two units of fuel
    or more the function never runs out of fuel, and more fuel changes
    nothing; it calls itself at most once. *)
Theorem makeCaproverRequest_terminates (fuel : nat) (endpoint method : string)
        (data : Js.value) (s : State) :
  fst (makeCaproverRequest env upstream (S (S fuel)) endpoint method data s)
  <> OutOfFuel /\
  makeCaproverRequest env upstream (S (S fuel)) endpoint method data s
  = makeCaproverRequest env upstream 2 endpoint method data s.
Proof.
  split.
  - destruct (makeCaproverRequest_run env upstream fuel endpoint method data s)
      as (evs & o & tok' & -> & R).
    cbn [fst]. eapply Run_fuel; eassumption.
  - destruct (Js.truthy (sessionToken s)) eqn:T.
    + now rewrite !makeCaproverRequest_stored by assumption.
    + destruct (endpoint =? LOGIN_ENDPOINT)%string eqn:L.
      * apply String.eqb_eq in L. subst endpoint.
        now rewrite !makeCaproverRequest_login_unset by assumption.
      * rewrite !makeCaproverRequest_unset by assumption. cbv zeta.
        destruct (login_outcome (upstream (trace s) (loginRequest env)))
          as [tok|e|]; try reflexivity.
        destruct (status_is_401 e); try reflexivity.
        match goal with
        | |- context [match login_outcome ?r with _ => _ end] =>
            destruct (login_outcome r) as [tok'|e'|] eqn:E'
        end; try reflexivity.
        now rewrite !makeCaproverRequest_stored
          by (cbn; eauto using login_outcome_truthy).
Qed.

(** One invocation makes at most one dispatch and at most two logins. *)
Theorem makeCaproverRequest_call_bound (fuel : nat) (endpoint method : string)
        (data : Js.value) (s : State) :
  let s' := snd (makeCaproverRequest env upstream (S (S fuel))
                                     endpoint method data s) in
  (dispatches (new_events s s') <= 1)%nat /\
  (logins (new_events s s') <= 2)%nat.
Proof.
  cbv zeta.
  destruct (makeCaproverRequest_run env upstream fuel endpoint method data s)
    as (evs & o & tok' & -> & R).
  cbn [snd]. erewrite new_events_app by reflexivity.
  apply Run_calls in R. lia.
Qed.

End Properties.

Section ConcurrentFacts.

Import Concurrent.

Variable env : Env.

(** Resuming [authenticate] with the upstream's reply is [authenticate]. *)
Lemma authenticate_resumed_eq (upstream : Upstream) (s : State) :
  authenticate_resumed env (upstream (trace s) (loginRequest env)) s
  = authenticate env upstream s.
Proof. reflexivity. Qed.

Lemma authenticate_resumed_outcome (r : Reply) (s : State) :
  authenticate_resumed env r s =
  let s' tok := mkState tok (trace s ++ [mkEvent LoginCall (loginRequest env) r]) in
  match login_outcome r with
  | Return tok => (Return tt, s' tok)
  | Throw e => (Throw e, s' (sessionToken s))
  | OutOfFuel => (OutOfFuel, s' (sessionToken s))
  end.
Proof.
  unfold authenticate_resumed, try_catch, bind, arrive, login_outcome.
  destruct (settle defaultValidateStatus r) as [resp|e|]; try reflexivity.
  cbv zeta.
  now destruct (Js.truthy (body resp) && Js.truthy (Js.get (body resp) "data")
                && Js.truthy (Js.get (Js.get (body resp) "data") "token")).
Qed.

Lemma send_stored (c : Call) (s : State) :
  Js.truthy (sessionToken s) = true ->
  send env c s
  = AwaitAxios c (dispatched env (sessionToken s) (endpoint c) (verb c) (payload c)).
Proof.
  intros T. unfold send, getAuthHeaders, bind, read_sessionToken.
  now rewrite T.
Qed.

Lemma enter_stored (c : Call) (s : State) :
  Js.truthy (sessionToken s) = true ->
  enter env c s
  = AwaitAxios c (dispatched env (sessionToken s) (endpoint c) (verb c) (payload c)).
Proof.
  intros T. unfold enter. rewrite T. cbn [negb andb]. now apply send_stored.
Qed.

Lemma enter_unset (c : Call) (s : State) :
  Js.truthy (sessionToken s) = false ->
  endpoint c <> LOGIN_ENDPOINT ->
  enter env c s = AwaitAuthenticate c.
Proof.
  intros T L. apply String.eqb_neq in L. unfold enter. now rewrite T, L.
Qed.

Lemma resume_dispatch (c : Call) (req : Request) (r : Reply) (s : State) :
  resume env (AwaitAxios c req) r s
  = Some (Settled (dispatch_outcome r),
          mkState (sessionToken s) (trace s ++ [mkEvent DispatchCall req r])).
Proof.
  pose proof (dispatch_outcome_not_401 r) as N.
  unfold resume, bind, arrive, dispatch_outcome, caught, throw, ret in *.
  destruct (settle dispatchValidateStatus r) as [resp|e|]; try reflexivity.
  - now destruct (status resp >=? 400).
  - now rewrite (N _ eq_refl).
Qed.

Lemma update_length (i : nat) (t : Task) (tasks : list Task) :
  length (update i t tasks) = length tasks.
Proof.
  revert i. induction tasks as [|t' rest IH]; intros [|i]; cbn; auto.
Qed.

Lemma update_middle (done todo : list Task) (t t' : Task) :
  update (length done) t' (done ++ t :: todo) = done ++ t' :: todo.
Proof. induction done as [|d done IH]; cbn; [reflexivity | now rewrite IH]. Qed.

Lemma nth_error_middle (done todo : list Task) (t : Task) :
  nth_error (done ++ t :: todo) (length done) = Some t.
Proof. induction done as [|d done IH]; cbn; auto. Qed.

Lemma step_length (a : Action) (cfg cfg' : Config) :
  step env a cfg = Some cfg' -> length (snd cfg') = length (snd cfg).
Proof.
  destruct cfg as [s tasks], a as [i|i r]; cbn.
  - destruct (nth_error tasks i) as [[c| | | |]|]; try discriminate.
    intros [= <-]. apply update_length.
  - destruct (nth_error tasks i) as [t|]; try discriminate.
    destruct (resume env t r s) as [[t' s']|]; try discriminate.
    intros [= <-]. apply update_length.
Qed.

Lemma exec_length (schedule : list Action) (cfg cfg' : Config) :
  exec env schedule cfg = Some cfg' -> length (snd cfg') = length (snd cfg).
Proof.
  revert cfg. induction schedule as [|a rest IH]; intros cfg; cbn.
  - now intros [= <-].
  - destruct (step env a cfg) as [cfg1|] eqn:E; try discriminate.
    intros H. rewrite (IH _ H). eapply step_length; eassumption.
Qed.

Lemma logins_in_flight_bound (tasks : list Task) :
  (logins_in_flight tasks <= length tasks)%nat.
Proof. apply filter_length_le. Qed.

Lemma logins_in_flight_all (calls : list Call) :
  logins_in_flight (map AwaitAuthenticate calls) = length calls.
Proof.
  unfold logins_in_flight. induction calls as [|c calls IH]; cbn; auto.
Qed.

(** Entering the invocations one after the other with no credential
    stored leaves every one of them waiting for its own login. *)
Lemma exec_enter_all (s : State) (done todo : list Call) :
  Js.truthy (sessionToken s) = false ->
  Forall (fun c => endpoint c <> LOGIN_ENDPOINT) todo ->
  exec env (map Enter (seq (length done) (length todo)))
       (s, map AwaitAuthenticate done ++ map Called todo)
  = Some (s, map AwaitAuthenticate (done ++ todo)).
Proof.
  intros T. revert done.
  induction todo as [|c todo IH]; intros done F.
  - cbn. now rewrite !app_nil_r.
  - inversion F as [|? ? L F']; subst.
    cbn [length seq map exec step].
    replace (length done) with (length (map AwaitAuthenticate done))
      by apply length_map.
    rewrite nth_error_middle, update_middle, enter_unset by assumption.
    specialize (IH (done ++ [c]) F').
    rewrite length_app, Nat.add_comm, map_app, <- !app_assoc in IH.
    rewrite length_map. exact IH.
Qed.

(** One invocation run alone in the concurrent model does what
    [makeCaproverRequest] does: it settles within four steps, with the same
    outcome, the same credential and the same outbound calls. *)
Theorem alone_refines (upstream : Upstream) (steps : nat) (c : Call) (s : State) :
  alone env upstream (4 + steps) (Called c) s =
  let (o, s') :=
    makeCaproverRequest env upstream 2 (endpoint c) (verb c) (payload c) s in
  (Settled o, s').
Proof.
  cbn [Nat.add]. cbn [alone].
  destruct (Js.truthy (sessionToken s)) eqn:T.
  - rewrite makeCaproverRequest_stored, enter_stored by assumption.
    cbn [alone]. now rewrite resume_dispatch.
  - destruct (endpoint c =? LOGIN_ENDPOINT)%string eqn:L.
    + destruct c as [ep v p]. cbn [endpoint verb payload] in *.
      apply String.eqb_eq in L. subst ep.
      rewrite makeCaproverRequest_login_unset by assumption.
      unfold enter, send, getAuthHeaders, bind, read_sessionToken, throw.
      cbn [endpoint]. rewrite T, String.eqb_refl. reflexivity.
    + rewrite makeCaproverRequest_unset by assumption. cbv zeta.
      rewrite enter_unset by (assumption || now apply String.eqb_neq).
      cbn [alone resume]. rewrite authenticate_resumed_outcome. cbv zeta.
      destruct (login_outcome (upstream (trace s) (loginRequest env)))
        as [tok|e|] eqn:E.
      * rewrite send_stored by (cbn; eauto using login_outcome_truthy).
        cbn [alone]. now rewrite resume_dispatch.
      * unfold caught. destruct (status_is_401 e); [|reflexivity].
        cbn [alone resume]. rewrite authenticate_resumed_outcome. cbv zeta.
        unfold called. cbn [trace sessionToken].
        match goal with
        | |- context [match login_outcome ?r with _ => _ end] =>
            destruct (login_outcome r) as [tok'|e'|] eqn:E'
        end.
        -- rewrite makeCaproverRequest_stored, enter_stored
             by (cbn; eauto using login_outcome_truthy).
           cbn [alone]. rewrite resume_dispatch. now destruct steps.
        -- reflexivity.
        -- now destruct (login_outcome_fuel _ E').
      * now destruct (login_outcome_fuel _ E).
Qed.

(** C9, amended.  Logins are not coalesced.  When the invocations of
    [calls], none of them on the login endpoint, are entered one after
    the other while no credential is stored, each of them sends a login of
    its own, so that as many logins are in flight at once as there are
    invocations; under every schedule that number is the most there can
    be; and an invocation whose login yields a token stores it and
    dispatches with that very token, whatever the others obtain. *)
Theorem logins_not_coalesced (calls : list Call) (s : State) :
  Js.truthy (sessionToken s) = false ->
  Forall (fun c => endpoint c <> LOGIN_ENDPOINT) calls ->
  let start : Config := (s, map Called calls) in
  (exists cfg,
      exec env (map Enter (seq 0 (length calls))) start = Some cfg /\
      logins_in_flight (snd cfg) = length calls) /\
  (forall schedule cfg,
      exec env schedule start = Some cfg ->
      (logins_in_flight (snd cfg) <= length calls)%nat) /\
  (forall c r s1 tok,
      login_outcome r = Return tok ->
      resume env (AwaitAuthenticate c) r s1
      = Some (AwaitAxios c (dispatched env tok (endpoint c) (verb c) (payload c)),
              mkState tok (trace s1 ++ [mkEvent LoginCall (loginRequest env) r]))).
Proof.
  intros T F. cbv zeta. split; [|split].
  - exists (s, map AwaitAuthenticate calls). split.
    + exact (exec_enter_all s [] calls T F).
    + apply logins_in_flight_all.
  - intros schedule cfg E. apply exec_length in E. cbn [snd] in E.
    rewrite length_map in E. rewrite <- E. apply logins_in_flight_bound.
  - intros c r s1 tok E. cbn [resume].
    rewrite authenticate_resumed_outcome, E. cbv beta iota zeta.
    now rewrite send_stored by (cbn; eauto using login_outcome_truthy).
Qed.

End ConcurrentFacts.

(** ** The route handlers of the session-token variant *)

Section RouteFacts.

Import Express.

Variable env : Env.
Variable upstream : Upstream.
Variable rt : Runtime.

Lemma destructure_cases {S : Type} (v : Js.value) (k : string) :
  (forall srv : Server S, destructure v k srv = (Exc (TypeError k), srv)) \/
  (forall srv : Server S, destructure v k srv = (Value (Js.get v k), srv)).
Proof. destruct v; cbn; auto. Qed.

Lemma destructure_object {S : Type} (fields : list (string * Js.value))
      (k : string) (srv : Server S) :
  destructure (Js.Obj fields) k srv = (Value (Js.lookup k fields), srv).
Proof. reflexivity. Qed.


(** With a credential stored, a call of the request helper is one
    dispatch. *)
Lemma request_stored (fuel : nat) (endpoint method : string) (data : Js.value)
      (srv : Server State) :
  Js.truthy (sessionToken (app srv)) = true ->
  Routes.request env upstream (S fuel) endpoint method data srv =
  let req := dispatched env (sessionToken (app srv)) endpoint method (or_null data) in
  let s' := called upstream DispatchCall req (sessionToken (app srv)) (app srv) in
  match dispatch_outcome (upstream (trace (app srv)) req) with
  | Return b => (Value b, mkServer s' (sent srv))
  | Throw e => (Exc (Raised e), mkServer s' (sent srv))
  | OutOfFuel => (Starved, mkServer s' (sent srv))
  end.
Proof.
  intros T. unfold Routes.request, await.
  rewrite makeCaproverRequest_stored by assumption. reflexivity.
Qed.



(** The eight handlers whose catch block names [appName] leave the
    request unanswered when the upstream call fails: with a credential
    stored and an upstream that answers with a status of 400 or more, or
    not at all, the handler writes nothing to [res] and ends with the
    [ReferenceError]; the credential is untouched. *)
Theorem unanswered_on_failure (fuel : nat) (r : Routes.Route) (req : Req)
        (srv : Server State) :
  Routes.names_app r = true ->
  Js.truthy (sessionToken (app srv)) = true ->
  (forall q, match upstream (trace (app srv)) q with
             | Responded resp => 400 <= status resp
             | NoResponse => True
             end) ->
  let (o, srv') := Routes.handle env upstream rt (S fuel) r req srv in
  o = Exc (ReferenceError "appName") /\
  sent srv' = sent srv /\
  sessionToken (app srv') = sessionToken (app srv).
Proof.
  intros N T U.
  assert (forall ep m d,
             exists e s',
               Routes.request env upstream (S fuel) ep m d srv
               = (Exc (Raised e), mkServer s' (sent srv)) /\
               sessionToken s' = sessionToken (app srv)) as F.
  { intros ep m d. rewrite request_stored by assumption. cbv zeta.
    specialize (U (dispatched env (sessionToken (app srv)) ep m (or_null d))).
    unfold dispatch_outcome, settle, dispatchValidateStatus.
    destruct (upstream _ _) as [resp|].
    - destruct ((200 <=? status resp) && (status resp <? 500)).
      + replace (status resp >=? 400) with true by lia. eauto.
      + eauto.
    - eauto. }
  destruct r; try discriminate N; cbn [Routes.handle];
    unfold Routes.getApp, Routes.updateApp, Routes.deleteApp, Routes.deleteAppVolumes,
      Routes.stopApp, Routes.scaleApp, Routes.addDomain, Routes.enableSsl,
      Routes.answer_failure, Routes.answer_failure_naming_app, out_of_scope, h_throw,
      h_try, h_bind, res_json;
    repeat match goal with
           | |- context [@destructure ?S ?v ?k ?srv] =>
               let E := fresh "E" in
               destruct (@destructure_cases S v k) as [E|E]; rewrite E; clear E
           | |- context [Routes.request ?e ?u ?f ?ep ?m ?d ?srv] =>
               let E := fresh "E" in
               let K := fresh "K" in
               let e' := fresh "e" in
               let s' := fresh "s'" in
               destruct (F ep m d) as (e' & s' & E & K); rewrite E; clear E
           end; cbn [sent app]; auto.
Qed.

(** What the answering handlers tell the client.  For creating an app,
    listing the apps and deploying a one-click app, with a credential
    stored and a body to read: a response with 200 <= status < 400 is
    answered 200 with the upstream body; every failure is answered 500;
    for a status from 400 to 499 the upstream body appears only inside the
    error message and the details are the fixed text; for a status of 500
    or more the details are the upstream body when it is truthy. *)
Theorem answered_failure_details (fuel : nat) (r : Routes.Route) (req : Req)
        (srv : Server State) (resp : Response) (fields : list (string * Js.value)) :
  Routes.names_app r = false ->
  reqBody req = Js.Obj fields ->
  Js.truthy (sessionToken (app srv)) = true ->
  (forall q, upstream (trace (app srv)) q = Responded resp) ->
  let (o, srv') := Routes.handle env upstream rt (S fuel) r req srv in
  o = Value tt /\
  (200 <= status resp < 400 ->
   sent srv' = sent srv ++ [mkSent 200 (body resp)]) /\
  (400 <= status resp < 500 ->
   sent srv' = sent srv ++
     [mkSent 500
        (Js.Obj [("error",
                  Js.Str ("Request failed with status "
                          ++ Js.string_of_Z (status resp) ++ ": "
                          ++ stringify rt (body resp)));
                 ("details", Js.Str NO_DETAILS)])]) /\
  (500 <= status resp ->
   sent srv' = sent srv ++
     [mkSent 500
        (Js.Obj [("error", Js.Str (axios_message rt (Some resp)));
                 ("details", or_else (body resp) (Js.Str NO_DETAILS))])]).
Proof.
  intros N B T U.
  assert (forall ep m d,
             exists s',
               Routes.request env upstream (S fuel) ep m d srv
               = (match dispatch_outcome (Responded resp) with
                  | Return b => Value b
                  | Throw e => Exc (Raised e)
                  | OutOfFuel => Starved
                  end, mkServer s' (sent srv))) as F.
  { intros ep m d. rewrite request_stored by assumption. cbv zeta.
    rewrite U. destruct (dispatch_outcome (Responded resp)); eauto. }
  destruct r; try discriminate N; cbn [Routes.handle];
    unfold Routes.createApp, Routes.listApps, Routes.oneClick, Routes.answer_failure, h_try, h_bind, res_json;
    rewrite ?B, ?destructure_object;
    match goal with
    | |- context [Routes.request ?e ?u ?f ?ep ?m ?d ?srv] =>
        let E := fresh "E" in
        let s' := fresh "s'" in
        destruct (F ep m d) as (s' & E); rewrite E; clear E
    end;
    unfold dispatch_outcome, settle, dispatchValidateStatus;
    destruct ((200 <=? status resp) && (status resp <? 500)) eqn:V;
    [ destruct (status resp >=? 400) eqn:W | | destruct (status resp >=? 400) eqn:W |
    | destruct (status resp >=? 400) eqn:W | ];
    cbn [sent app]; (split; [reflexivity|]);
    (split; [|split]); intros; try lia; reflexivity.
Qed.

Lemma logins_app (a b : list Event) : logins (a ++ b) = (logins a + logins b)%nat.
Proof. unfold logins. now rewrite filter_app, length_app. Qed.

Lemma dispatches_app (a b : list Event) :
  dispatches (a ++ b) = (dispatches a + dispatches b)%nat.
Proof. unfold dispatches. now rewrite filter_app, length_app. Qed.

(** With a credential stored a handler makes no login and leaves the
    credential alone. *)
Lemma handler_stored (fuel : nat) (r : Routes.Route) (req : Req)
      (srv : Server State) :
  Js.truthy (sessionToken (app srv)) = true ->
  let srv' := snd (Routes.handle env upstream rt (S fuel) r req srv) in
  exists evs extra,
    sessionToken (app srv') = sessionToken (app srv) /\
    trace (app srv') = trace (app srv) ++ evs /\
    logins evs = 0%nat /\ (dispatches evs <= 1)%nat /\
    sent srv' = sent srv ++ extra /\
    (refusing upstream -> Forall (fun x => code x = 500) extra).
Proof.
  intros T. cbv zeta.
  assert (forall ep m d,
             exists o e s',
               Routes.request env upstream (S fuel) ep m d srv
               = (o, mkServer s' (sent srv)) /\
               sessionToken s' = sessionToken (app srv) /\
               trace s' = trace (app srv) ++ [e] /\
               site e = DispatchCall /\
               ((exists b, o = Value b /\ ~ refusing upstream) \/
                (exists x, o = Exc (Raised x)))) as F.
  { intros ep m d. rewrite request_stored by assumption. cbv zeta.
    pose proof (dispatch_outcome_fuel
                  (upstream (trace (app srv))
                            (dispatched env (sessionToken (app srv)) ep m
                                        (or_null d)))) as N.
    destruct (dispatch_outcome _) as [b|x|] eqn:D; [| |congruence].
    - eexists _, _, _. repeat split. left. exists b. split; [reflexivity|].
      intros U.
      specialize (U (trace (app srv))
                    (dispatched env (sessionToken (app srv)) ep m (or_null d))).
      unfold dispatch_outcome, settle, dispatchValidateStatus in D.
      destruct (upstream _ _) as [resp|]; [|discriminate].
      destruct ((200 <=? status resp) && (status resp <? 500)); [|discriminate].
      replace (status resp >=? 400) with true in D by lia. discriminate.
    - eexists _, _, _. repeat split. right. now exists x. }
  destruct r; cbn [Routes.handle];
    unfold Routes.createApp, Routes.listApps, Routes.getApp, Routes.updateApp,
      Routes.deleteApp, Routes.deleteAppVolumes, Routes.stopApp, Routes.scaleApp,
      Routes.addDomain, Routes.enableSsl, Routes.oneClick,
      Routes.answer_failure, Routes.answer_failure_naming_app, out_of_scope,
      h_throw, h_try, h_bind, res_json;
    repeat match goal with
           | |- context [@destructure ?S ?v ?k ?srv] =>
               let E := fresh "E" in
               destruct (@destructure_cases S v k) as [E|E]; rewrite E; clear E
           | |- context [Routes.request ?e ?u ?f ?ep ?m ?d ?srv] =>
               let E := fresh "E" in
               destruct (F ep m d)
                 as (o & ev & s' & E & ? & ? & ? & [(b & -> & ?)|(x & ->)]);
               rewrite E; clear E
           end; cbn [sent app snd];
    eexists; eexists;
    (split; [first [reflexivity | eassumption]|]);
    (split; [first [eassumption | symmetry; apply app_nil_r]|]);
    (split;
     [first [ reflexivity
            | unfold logins, is_login; cbn;
              match goal with H : site _ = _ |- _ => now rewrite H end ]|]);
    (split;
     [first [ cbn; lia
            | unfold dispatches, is_dispatch; cbn;
              match goal with H : site _ = _ |- _ => rewrite H end; cbn; lia ]|]);
    (split; [first [reflexivity | symmetry; apply app_nil_r]|]);
    intros; first [contradiction | repeat constructor].
Qed.

Lemma serve_stored (fuel : nat) (calls : list (Routes.Route * Req))
      (srv : Server State) :
  Js.truthy (sessionToken (app srv)) = true ->
  let srv' := Routes.serve env upstream rt (S fuel) calls srv in
  exists evs extra,
    sessionToken (app srv') = sessionToken (app srv) /\
    trace (app srv') = trace (app srv) ++ evs /\
    logins evs = 0%nat /\ (dispatches evs <= length calls)%nat /\
    sent srv' = sent srv ++ extra /\
    (refusing upstream -> Forall (fun x => code x = 500) extra).
Proof.
  cbv zeta. revert srv.
  induction calls as [|[r req] rest IH]; intros srv T.
  - exists [], []. cbn. rewrite !app_nil_r. repeat split; auto.
  - cbn [Routes.serve].
    destruct (handler_stored fuel r req srv T)
      as (evs & extra & K1 & K2 & K3 & K4 & K5 & K6).
    cbv zeta in *.
    destruct (IH (snd (Routes.handle env upstream rt (S fuel) r req srv)))
      as (evs' & extra' & J1 & J2 & J3 & J4 & J5 & J6);
      [now rewrite K1|].
    exists (evs ++ evs'), (extra ++ extra').
    rewrite J1, J2, J5, K1, K2, K5, logins_app, dispatches_app, !app_assoc.
    repeat split; auto; try (cbn; lia).
    intros U. apply Forall_app. auto.
Qed.

(** A stored credential is never refreshed by the routes.  Over any
    sequence of requests handled with a credential in place, no login is
    made, the credential stays what it was and each request makes at most
    one dispatch; so when the upstream refuses that credential (every
    reply a status of 400 or more, or none), no request is ever answered
    200. *)
Theorem stored_credential_never_refreshed (fuel : nat)
        (calls : list (Routes.Route * Req)) (srv : Server State) :
  Js.truthy (sessionToken (app srv)) = true ->
  let srv' := Routes.serve env upstream rt (S fuel) calls srv in
  sessionToken (app srv') = sessionToken (app srv) /\
  logins (new_events (app srv) (app srv')) = 0%nat /\
  (dispatches (new_events (app srv) (app srv')) <= length calls)%nat /\
  ((forall history q,
       match upstream history q with
       | Responded resp => 400 <= status resp
       | NoResponse => True
       end) ->
   Forall (fun x => code x = 500) (skipn (length (sent srv)) (sent srv'))).
Proof.
  intros T. cbv zeta.
  destruct (serve_stored fuel calls srv T)
    as (evs & extra & K1 & K2 & K3 & K4 & K5 & K6).
  cbv zeta in *.
  rewrite (new_events_app _ _ _ K2), K5.
  rewrite skipn_app, Nat.sub_diag, skipn_all. cbn [List.app skipn].
  repeat split; auto.
Qed.


Variable NODE_ENV : option string.
Variable stack : Exception -> string.

Lemma await_authenticate (srv : Server State) :
  await (authenticate env upstream) srv =
  let r := upstream (trace (app srv)) (loginRequest env) in
  match login_outcome r with
  | Return tok =>
      (Value tt,
       mkServer (called upstream LoginCall (loginRequest env) tok (app srv))
                (sent srv))
  | Throw e =>
      (Exc (Raised e),
       mkServer (called upstream LoginCall (loginRequest env)
                        (sessionToken (app srv)) (app srv))
                (sent srv))
  | OutOfFuel =>
      (Starved,
       mkServer (called upstream LoginCall (loginRequest env)
                        (sessionToken (app srv)) (app srv))
                (sent srv))
  end.
Proof.
  unfold await. rewrite authenticate_eq. cbv zeta.
  now destruct (login_outcome _).
Qed.


(** The Routes.health check logs in again even when a credential is stored.
    When the login yields a token and the list of apps is answered with a
    status from 200 to 399, the outbound calls are that login and one
    dispatch carrying the new token, the new token is the credential, and
    the answer is 200 with the apps, or with the empty array when the
    upstream body is falsy. *)
Theorem health_logs_in_again (fuel : nat) (req : Req) (srv : Server State)
        (tok : Js.value) (resp : Response) :
  let s := app srv in
  let login := mkEvent LoginCall (loginRequest env)
                       (upstream (trace s) (loginRequest env)) in
  let list := dispatched env tok "/api/v2/user/apps" "get" Js.Null in
  login_outcome (reply login) = Return tok ->
  upstream (trace s ++ [login]) list = Responded resp ->
  200 <= status resp < 400 ->
  let (o, srv') := Routes.health env upstream rt NODE_ENV (S fuel) stack req srv in
  o = Value tt /\
  new_events s (app srv') = [login; mkEvent DispatchCall list (Responded resp)] /\
  sessionToken (app srv') = tok /\
  sent srv' = sent srv ++
    [mkSent 200
       (Js.Obj [("status", Js.Str "healthy");
                ("authenticated", Js.Bool true);
                ("apps", or_else (body resp) (Js.Arr []))])].
Proof.
  cbv zeta. intros L U V.
  unfold Routes.health, h_try, h_bind at 1 2. rewrite await_authenticate. cbv zeta.
  cbn [reply] in L. rewrite L. unfold h_bind at 1.
  rewrite request_stored by (cbn; eauto using login_outcome_truthy).
  cbv zeta. cbn [app called sessionToken trace or_null]. rewrite U.
  unfold dispatch_outcome, settle, dispatchValidateStatus.
  replace ((200 <=? status resp) && (status resp <? 500)) with true by lia.
  replace (status resp >=? 400) with false by lia.
  unfold res_json. cbn [app sent sessionToken trace].
  repeat split.
  apply new_events_app. unfold called. cbn [trace].
  now rewrite <- app_assoc, U.
Qed.

(** When the list of apps is answered with status 500, the Routes.health check
    makes one more outbound call, for the version, before it answers 500
    with the upstream body as details; the answer does not depend on what
    the version call gives. *)
Theorem health_probes_version (fuel : nat) (req : Req) (srv : Server State)
        (tok : Js.value) (resp : Response) :
  let s := app srv in
  let login := mkEvent LoginCall (loginRequest env)
                       (upstream (trace s) (loginRequest env)) in
  let list := mkEvent DispatchCall
                      (dispatched env tok "/api/v2/user/apps" "get" Js.Null)
                      (Responded resp) in
  let version := dispatched env tok "/api/v2/version" "get" Js.Null in
  login_outcome (reply login) = Return tok ->
  upstream (trace s ++ [login]) (request list) = Responded resp ->
  status resp = 500 ->
  let (o, srv') := Routes.health env upstream rt NODE_ENV (S fuel) stack req srv in
  o = Value tt /\
  new_events s (app srv')
  = [login; list;
     mkEvent DispatchCall version (upstream (trace s ++ [login; list]) version)] /\
  exists st,
    sent srv' = sent srv ++
      [mkSent 500
         (Js.Obj [("status", Js.Str "unhealthy");
                  ("error", Js.Str (axios_message rt (Some resp)));
                  ("details", or_else (body resp) (Js.Str NO_DETAILS));
                  ("stack", st)])].
Proof.
  cbv zeta. intros L U V.
  unfold Routes.health, h_try, h_bind at 1 2. rewrite await_authenticate.
  cbv zeta. cbn [reply request] in L, U. rewrite L. unfold h_bind at 1.
  rewrite request_stored by (cbn; eauto using login_outcome_truthy).
  cbv zeta. unfold called.
  cbn [Express.app Express.sent sessionToken trace or_null]. rewrite U.
  unfold dispatch_outcome at 1, settle, dispatchValidateStatus. rewrite V.
  cbn [Z.leb Z.ltb Z.geb Z.compare Pos.compare Pos.compare_cont andb].
  unfold h_bind at 1. unfold status_is_500, exception_response, response_of.
  rewrite V. cbn [Z.eqb Pos.eqb].
  rewrite request_stored by (cbn; eauto using login_outcome_truthy).
  cbv zeta. unfold called.
  cbn [Express.app Express.sent sessionToken trace or_null].
  rewrite <- !app_assoc. cbn [List.app].
  match goal with
  | |- context [dispatch_outcome ?r] =>
      pose proof (dispatch_outcome_fuel r) as F;
      destruct (dispatch_outcome r) as [b|e|]; [| |congruence]
  end;
    unfold h_bind, h_ret, res_json;
    cbn [Express.app Express.sent sessionToken trace];
    (split; [reflexivity|]);
    (split; [now apply new_events_app|]);
    eexists; unfold message, error_message, response_data, exception_response,
               response_of; reflexivity.
Qed.

End RouteFacts.

(** ** The handlers of the password-header variant *)

Section V1Facts.

Import Express.

Variable env : Env.
Variable upstream : Upstream.
Variable rt : Runtime.

(** The request helper makes one outbound call with the configured
    headers, and settles. *)
Lemma v1_request_eq (endpoint method : string) (data : Js.value)
      (srv : Server (list Event)) :
  V1.request env upstream rt endpoint method data srv =
  let req := mkRequest method
                       (Js.toString (env_value (CAPROVER_URL env)) ++ endpoint)%string
                       (V1.configHeaders env) (or_null data) in
  let r := upstream (app srv) req in
  (match settle defaultValidateStatus r with
   | Return resp => Value (body resp)
   | Throw e =>
       Exc (Raised
              (PlainError
                 (Text (Js.toString
                          (or_else (V1.upstream_message e)
                                   (Js.Str (error_message rt e)))))))
   | OutOfFuel => Starved
   end,
   mkServer (app srv ++ [mkEvent DispatchCall req r]) (sent srv)).
Proof.
  unfold V1.request, await, V1.makeCaproverRequest. cbv zeta.
  now destruct (settle defaultValidateStatus _).
Qed.

Lemma settle_fuel (validate : Z -> bool) (r : Reply) :
  settle validate r <> OutOfFuel.
Proof.
  destruct r as [resp|]; cbn; [|discriminate].
  now destruct (validate (status resp)).
Qed.



(** The client is told what the upstream said.  When the request can be
    read and the upstream answers with a status outside 200 to 299 and a
    body whose [message] is truthy, the handler answers 500 with that
    message as the error; with no such message the error is the text of
    the axios error; a status from 200 to 299 is answered 200 with the
    upstream body. *)
Theorem v1_relays_upstream_message (r : V1.Route) (req : Req)
        (srv : Server (list Event)) (resp : Response)
        (ps bs : list (string * Js.value)) :
  params req = Js.Obj ps ->
  reqBody req = Js.Obj bs ->
  (forall q, upstream (app srv) q = Responded resp) ->
  let m := Js.get (body resp) "message" in
  let (o, srv') := V1.handle env upstream rt r req srv in
  (200 <= status resp < 300 ->
   sent srv' = sent srv ++ [mkSent 200 (body resp)]) /\
  (~ 200 <= status resp < 300 -> Js.truthy m = true ->
   sent srv' = sent srv ++
     [mkSent 500 (Js.Obj [("error", Js.Str (Js.toString m))])]) /\
  (~ 200 <= status resp < 300 -> Js.truthy m = false ->
   sent srv' = sent srv ++
     [mkSent 500 (Js.Obj [("error", Js.Str (axios_message rt (Some resp)))])]).
Proof.
  intros P B U. cbv zeta.
  assert (Js.truthy (Js.get (body resp) "message") = true ->
          V1.upstream_message (AxiosError (Some resp))
          = Js.get (body resp) "message") as M1.
  { unfold V1.upstream_message. cbn [response_of].
    destruct (body resp); cbn; try discriminate; reflexivity. }
  assert (Js.truthy (Js.get (body resp) "message") = false ->
          Js.truthy (V1.upstream_message (AxiosError (Some resp))) = false) as M2.
  { unfold V1.upstream_message. cbn [response_of].
    destruct (body resp); cbn; auto. }
  destruct r; cbn [V1.handle];
    unfold V1.createApp, V1.listApps, V1.getApp, V1.updateApp, V1.deleteApp,
      V1.deleteAppVolumes, V1.stopApp, V1.scaleApp, V1.addDomain, V1.enableSsl,
      V1.oneClick, V1.answer_failure, h_try, h_bind, res_json;
    rewrite ?P, ?B, ?destructure_object, v1_request_eq; cbv zeta;
    rewrite U; unfold settle, defaultValidateStatus;
    destruct ((200 <=? status resp) && (status resp <? 300)) eqn:V;
    cbn [sent app];
    (split; [|split]); intros; try lia; try reflexivity;
    unfold or_else, message, error_message;
    rewrite ?M1, ?M2 by assumption;
    match goal with
    | H : Js.truthy _ = _ |- _ => rewrite ?H
    end; reflexivity.
Qed.

(** The health check of this variant stops at the first failure: when
    the login call fails the list of apps is never asked for, and only
    when both calls succeed is the answer 200, with the two upstream
    bodies. *)
Theorem v1_health_stops_at_failure (req : Req) (srv : Server (list Event)) :
  let url := Js.toString (env_value (CAPROVER_URL env)) in
  let login :=
    mkRequest "post" (url ++ "/api/v1/login")%string (V1.configHeaders env)
              (Js.Obj [("password", env_value (CAPROVER_PASSWORD env))]) in
  let list :=
    mkRequest "get" (url ++ "/api/v1/user/apps")%string (V1.configHeaders env)
              Js.Null in
  let e1 := mkEvent DispatchCall login (upstream (app srv) login) in
  let e2 := mkEvent DispatchCall list (upstream (app srv ++ [e1]) list) in
  let (o, srv') := V1.health env upstream rt req srv in
  o = Value tt /\
  match settle defaultValidateStatus (reply e1),
        settle defaultValidateStatus (reply e2) with
  | Return r1, Return r2 =>
      app srv' = app srv ++ [e1; e2] /\
      sent srv' = sent srv ++
        [mkSent 200 (Js.Obj [("dashboardInfo", body r1); ("apps", body r2)])]
  | Return r1, _ =>
      app srv' = app srv ++ [e1; e2] /\
      exists msg, sent srv' = sent srv ++ [mkSent 500 (Js.Obj [("error", Js.Str msg)])]
  | _, _ =>
      app srv' = app srv ++ [e1] /\
      exists msg, sent srv' = sent srv ++ [mkSent 500 (Js.Obj [("error", Js.Str msg)])]
  end.
Proof.
  cbv zeta. unfold V1.health, V1.answer_failure, h_try, h_bind, res_json.
  rewrite v1_request_eq. cbv zeta. cbn [or_null reply].
  destruct (settle defaultValidateStatus (upstream (app srv) _)) as [r1|e|] eqn:E1.
  - rewrite v1_request_eq. cbv zeta. cbn [or_null app sent].
    destruct (settle defaultValidateStatus (upstream (app srv ++ _) _))
      as [r2|e|] eqn:E2; cbn [app sent]; rewrite <- app_assoc.
    + repeat split.
    + split; [reflexivity|]. split; [reflexivity|]. eexists; reflexivity.
    + now destruct (settle_fuel _ _ E2).
  - cbn [app sent]. split; [reflexivity|]. split; [reflexivity|].
    eexists; reflexivity.
  - now destruct (settle_fuel _ _ E1).
Qed.

End V1Facts.

(** In both variants the app name goes into the upstream path as it is:
    deleting the app whose name ends in [?deleteVolumes=true] is, call for
    call and answer for answer, deleting the app of the shorter name with
    its volumes. *)
Theorem delete_reaches_volumes (env : Env) (upstream : Upstream)
        (rt : Express.Runtime) (fuel : nat) (name : string) (b : Js.value) :
  let long := Express.mkReq (Js.Obj [("appName", Js.Str (name ++ "?deleteVolumes=true"))]) b in
  let short := Express.mkReq (Js.Obj [("appName", Js.Str name)]) b in
  (forall srv,
      Routes.handle env upstream rt fuel Routes.DeleteApp long srv
      = Routes.handle env upstream rt fuel Routes.DeleteAppVolumes short srv) /\
  (forall srv,
      V1.handle env upstream rt V1.DeleteApp long srv
      = V1.handle env upstream rt V1.DeleteAppVolumes short srv).
Proof. split; reflexivity. Qed.

(** ** The properties at concrete inputs *)

Lemma dispatch_401_not_retried_witness :
  let s := Scenario.stored "abc" in
  let up := Scenario.expired_then_fresh in
  let b := Js.Str "Unauthorized" in
  Js.truthy (sessionToken s) = true /\
  up (trace s) (dispatched Scenario.env (sessionToken s) Scenario.apps "get" Js.Null)
  = Responded (mkResponse 401 b) /\
  let (o, s') :=
    makeCaproverRequest Scenario.env up 2 Scenario.apps "get" Js.Null s in
  o = Throw (PlainError (RequestFailedWithStatus 401 b)) /\
  sessionToken s' = sessionToken s /\
  dispatches (new_events s s') = 1%nat /\
  logins (new_events s s') = 0%nat.
Proof.
  cbv zeta. split; [reflexivity|]. split; [reflexivity|].
  apply (dispatch_401_not_retried
           Scenario.env Scenario.expired_then_fresh 1 Scenario.apps "get"
           Js.Null (Scenario.stored "abc") (Js.Str "Unauthorized"));
    reflexivity.
Defined.

(** The scenario of the specification: the login yields the token abc,
    the call carries it and is answered with 401, a further login would
    yield xyz.  The program stops at the 401: one login, one dispatch,
    the credential still abc. *)
Example expiry_scenario :
  let up := Scenario.scripted
              [Scenario.ok (Scenario.tokenBody "abc"); Scenario.unauthorized;
               Scenario.ok (Scenario.tokenBody "xyz"); Scenario.ok (Js.Str "apps")] in
  let (o, s') :=
    makeCaproverRequest Scenario.env up 2 Scenario.apps "get" Js.Null
                        Scenario.fresh in
  o = Throw (PlainError (RequestFailedWithStatus 401 (Js.Str "Unauthorized"))) /\
  map site (trace s') = [LoginCall; DispatchCall] /\
  Concurrent.bearers (trace s') = [Some "Bearer abc"] /\
  sessionToken s' = Js.Str "abc".
Proof. vm_compute. repeat split. Qed.

Lemma rejected_everywhere_one_dispatch_witness :
  let s := Scenario.stored "abc" in
  Js.truthy (sessionToken s) = true /\
  (forall history req, is_401 (Scenario.rejecting history req) = true) /\
  let (o, s') :=
    makeCaproverRequest Scenario.env Scenario.rejecting 2 Scenario.apps "get"
                        Js.Null s in
  (exists b, o = Throw (PlainError (RequestFailedWithStatus 401 b))) /\
  dispatches (new_events s s') = 1%nat /\
  logins (new_events s s') = 0%nat.
Proof.
  cbv zeta. split; [reflexivity|]. split; [reflexivity|].
  apply (rejected_everywhere_one_dispatch
           Scenario.env Scenario.rejecting 1 Scenario.apps "get" Js.Null
           (Scenario.stored "abc")); reflexivity.
Defined.

(** C3, as stated, fails: no credential is stored, the first login is
    answered with 401, the second yields a token, and the call is
    dispatched after two logins. *)
Lemma two_logins_before_dispatch :
  let s := Scenario.fresh in
  let (o, s') :=
    makeCaproverRequest Scenario.env Scenario.expired_then_fresh 2
                        Scenario.apps "get" Js.Null s in
  o = Return (Js.Str "apps") /\
  map site (new_events s s') = [LoginCall; LoginCall; DispatchCall] /\
  logins (new_events s s') = 2%nat.
Proof. vm_compute. repeat split. Qed.

Lemma unset_credential_login_first_witness :
  let s := Scenario.fresh in
  let up := Scenario.scripted
              [Scenario.ok (Scenario.tokenBody "abc"); Scenario.ok (Js.Str "apps")] in
  Js.truthy (sessionToken s) = false /\
  Scenario.apps <> LOGIN_ENDPOINT /\
  let (o, s') :=
    makeCaproverRequest Scenario.env up 2 Scenario.apps "get" Js.Null s in
  map site (new_events s s') = [LoginCall; DispatchCall] /\
  sessionToken s' = Js.Str "abc" /\
  Concurrent.bearers (new_events s s') = [Some "Bearer abc"].
Proof.
  cbv zeta. split; [reflexivity|]. split; [discriminate|].
  pose proof (unset_credential_login_first
                Scenario.env
                (Scenario.scripted
                   [Scenario.ok (Scenario.tokenBody "abc");
                    Scenario.ok (Js.Str "apps")])
                0 Scenario.apps "get" Js.Null Scenario.fresh eq_refl
                ltac:(discriminate)) as W.
  cbv zeta in W.
  destruct (makeCaproverRequest _ _ _ _ _ _ _) as [o s'].
  match type of W with
  | match ?lo with _ => _ end =>
      let E := fresh "E" in
      remember lo as x eqn:E in W; vm_compute in E; subst x
  end.
  cbv beta iota in W. destruct W as (r' & E1 & E2 & _).
  rewrite E1, E2. repeat split.
Defined.

Lemma authenticate_token_witness :
  let s := Scenario.fresh in
  let resp := mkResponse 200 (Scenario.tokenBody "abc") in
  let up := Scenario.scripted [Responded resp] in
  up (trace s) (loginRequest Scenario.env) = Responded resp /\
  200 <= status resp < 300 /\
  let tok := Js.get (Js.get (body resp) "data") "token" in
  let (o, s') := authenticate Scenario.env up s in
  new_events s s' = [mkEvent LoginCall (loginRequest Scenario.env) (Responded resp)] /\
  (Js.truthy tok = true -> o = Return tt /\ sessionToken s' = tok) /\
  (tok = Js.Undefined \/ Js.truthy tok = false ->
   o = Throw (PlainError (Text NO_VALID_TOKEN)) /\
   sessionToken s' = sessionToken s).
Proof.
  cbv zeta. split; [reflexivity|]. split; [cbn; lia|].
  apply (authenticate_token
           Scenario.env
           (Scenario.scripted [Responded (mkResponse 200 (Scenario.tokenBody "abc"))])
           Scenario.fresh (mkResponse 200 (Scenario.tokenBody "abc")));
    [reflexivity | cbn; lia].
Defined.

(** C5, as stated, fails: a 304 response is a client error in the words
    of the specification, and the program returns its body as a success. *)
Lemma not_modified_is_success :
  let resp := mkResponse 304 (Js.Str "") in
  spec_classify resp = ClientError 304 (Js.Str "") /\
  fst (makeCaproverRequest Scenario.env (Scenario.scripted [Responded resp]) 2
                           Scenario.apps "get" Js.Null (Scenario.stored "abc"))
  = Return (Js.Str "").
Proof. vm_compute. split; reflexivity. Qed.

Lemma dispatch_classification_witness :
  let s := Scenario.stored "abc" in
  let resp := mkResponse 404 (Js.Str "Not Found") in
  let up := Scenario.scripted [Responded resp] in
  Js.truthy (sessionToken s) = true /\
  up (trace s) (dispatched Scenario.env (sessionToken s) Scenario.apps "get" Js.Null)
  = Responded resp /\
  400 <= status resp < 500 /\ status resp <> 401 /\
  fst (makeCaproverRequest Scenario.env up 2 Scenario.apps "get" Js.Null s)
  = Throw (PlainError (RequestFailedWithStatus 404 (Js.Str "Not Found"))).
Proof.
  cbv zeta. split; [reflexivity|]. split; [reflexivity|].
  split; [cbn; lia|]. split; [discriminate|].
  apply (dispatch_classification
           Scenario.env
           (Scenario.scripted [Responded (mkResponse 404 (Js.Str "Not Found"))])
           1 Scenario.apps "get" Js.Null (Scenario.stored "abc")
           (mkResponse 404 (Js.Str "Not Found")) eq_refl eq_refl);
    [cbn; lia | discriminate].
Defined.

Lemma transport_error_is_final_witness :
  let s := Scenario.stored "abc" in
  let up := Scenario.scripted [] in
  let e := mkEvent DispatchCall
                   (dispatched Scenario.env (Js.Str "abc") Scenario.apps "get" Js.Null)
                   NoResponse in
  let (o, s') :=
    makeCaproverRequest Scenario.env up 2 Scenario.apps "get" Js.Null s in
  new_events s s' = [] ++ e :: [] /\
  reply e = NoResponse /\
  logins (new_events s s') = 0%nat /\
  o = Throw (AxiosError None).
Proof.
  cbv zeta.
  pose proof (transport_error_is_final
                Scenario.env (Scenario.scripted []) 0 Scenario.apps "get" Js.Null
                (Scenario.stored "abc") [] []
                (mkEvent DispatchCall
                         (dispatched Scenario.env (Js.Str "abc") Scenario.apps
                                     "get" Js.Null)
                         NoResponse)) as W.
  destruct (makeCaproverRequest _ _ _ _ _ _ _) as [o s'] eqn:E.
  vm_compute in E. injection E as <- <-.
  destruct (W eq_refl eq_refl) as (_ & _ & O).
  repeat split.
Defined.

Lemma upstream_error_passes_through_witness :
  let s := Scenario.stored "abc" in
  let resp := mkResponse 500 (Js.Str "Internal Server Error") in
  let up := Scenario.scripted [Responded resp] in
  Js.truthy (sessionToken s) = true /\
  up (trace s) (dispatched Scenario.env (sessionToken s) Scenario.apps "get" Js.Null)
  = Responded resp /\
  (status resp = 404 \/ status resp = 500) /\
  let (o, s') :=
    makeCaproverRequest Scenario.env up 2 Scenario.apps "get" Js.Null s in
  (status resp = 404 ->
   o = Throw (PlainError (RequestFailedWithStatus 404 (body resp)))) /\
  (status resp = 500 -> o = Throw (AxiosError (Some resp))) /\
  (forall err, o = Throw err -> status_is_401 err = false) /\
  sessionToken s' = sessionToken s /\
  logins (new_events s s') = 0%nat /\
  dispatches (new_events s s') = 1%nat.
Proof.
  cbv zeta. split; [reflexivity|]. split; [reflexivity|].
  split; [right; reflexivity|].
  apply (upstream_error_passes_through
           Scenario.env
           (Scenario.scripted
              [Responded (mkResponse 500 (Js.Str "Internal Server Error"))])
           1 Scenario.apps "get" Js.Null (Scenario.stored "abc")
           (mkResponse 500 (Js.Str "Internal Server Error")) eq_refl eq_refl);
    right; reflexivity.
Defined.

Lemma login_endpoint_needs_token_witness :
  let s := Scenario.fresh in
  Js.truthy (sessionToken s) = false /\
  let (o, s') :=
    makeCaproverRequest Scenario.env Scenario.expired_then_fresh 2
                        LOGIN_ENDPOINT "post" Js.Null s in
  o = Throw (PlainError (Text NO_SESSION_TOKEN)) /\
  s' = s /\ new_events s s' = [].
Proof.
  cbv zeta. split; [reflexivity|].
  apply (login_endpoint_needs_token
           Scenario.env Scenario.expired_then_fresh 1 "post" Js.Null
           Scenario.fresh); reflexivity.
Defined.

(** C9, as stated, fails: two invocations entered while no credential is
    stored have two logins in flight at once, and when the two logins
    yield different tokens the two calls are dispatched with different
    credentials. *)
Lemma two_logins_in_flight :
  let start : Concurrent.Config :=
    (Scenario.fresh,
     [Concurrent.Called Scenario.listApps; Concurrent.Called Scenario.listApps]) in
  option_map (fun cfg => Concurrent.logins_in_flight (snd cfg))
             (Concurrent.exec Scenario.env
                              [Concurrent.Enter 0; Concurrent.Enter 1] start)
  = Some 2%nat /\
  option_map (fun cfg => (logins (trace (fst cfg)),
                          Concurrent.bearers (trace (fst cfg)),
                          snd cfg))
             (Concurrent.exec
                Scenario.env
                [Concurrent.Enter 0; Concurrent.Enter 1;
                 Concurrent.Deliver 0 (Scenario.ok (Scenario.tokenBody "t1"));
                 Concurrent.Deliver 1 (Scenario.ok (Scenario.tokenBody "t2"));
                 Concurrent.Deliver 0 (Scenario.ok (Js.Str "apps"));
                 Concurrent.Deliver 1 (Scenario.ok (Js.Str "apps"))]
                start)
  = Some (2%nat, [Some "Bearer t1"; Some "Bearer t2"],
          [Concurrent.Settled (Return (Js.Str "apps"));
           Concurrent.Settled (Return (Js.Str "apps"))]).
Proof. vm_compute. split; reflexivity. Qed.

Lemma logins_not_coalesced_witness :
  let calls := [Scenario.listApps; Scenario.listApps; Scenario.listApps] in
  let s := Scenario.fresh in
  Js.truthy (sessionToken s) = false /\
  Forall (fun c => Concurrent.endpoint c <> LOGIN_ENDPOINT) calls /\
  exists cfg,
    Concurrent.exec Scenario.env (map Concurrent.Enter (seq 0 (length calls)))
                    (s, map Concurrent.Called calls) = Some cfg /\
    Concurrent.logins_in_flight (snd cfg) = 3%nat.
Proof.
  cbv zeta.
  assert (Forall (fun c => Concurrent.endpoint c <> LOGIN_ENDPOINT)
                 [Scenario.listApps; Scenario.listApps; Scenario.listApps]) as F
      by (repeat constructor; discriminate).
  split; [reflexivity|]. split; [exact F|].
  exact (proj1 (logins_not_coalesced
                  Scenario.env
                  [Scenario.listApps; Scenario.listApps; Scenario.listApps]
                  Scenario.fresh eq_refl F)).
Defined.

(** ** The handlers at concrete inputs *)

Lemma unanswered_on_failure_witness :
  let srv := Sample.server (Scenario.stored "abc") in
  let req := Sample.named "ghost" Js.Undefined in
  Routes.names_app Routes.GetApp = true /\
  Js.truthy (sessionToken (Express.app srv)) = true /\
  (forall q, match Sample.missing (trace (Express.app srv)) q with
             | Responded resp => 400 <= status resp
             | NoResponse => True
             end) /\
  let (o, srv') :=
    Routes.handle Scenario.env Sample.missing Sample.rt 2 Routes.GetApp req srv in
  o = Express.Exc (Express.ReferenceError "appName") /\
  Express.sent srv' = Express.sent srv /\
  sessionToken (Express.app srv') = sessionToken (Express.app srv).
Proof.
  cbv zeta. split; [reflexivity|]. split; [reflexivity|].
  split; [intros q; cbn; lia|].
  apply (unanswered_on_failure
           Scenario.env Sample.missing Sample.rt 1 Routes.GetApp
           (Sample.named "ghost" Js.Undefined)
           (Sample.server (Scenario.stored "abc")));
    [reflexivity | reflexivity | intros q; cbn; lia].
Defined.

Lemma answered_failure_details_witness :
  let srv := Sample.server (Scenario.stored "abc") in
  let req := Express.mkReq (Js.Obj []) (Js.Obj []) in
  Routes.names_app Routes.ListApps = false /\
  Express.reqBody req = Js.Obj [] /\
  Js.truthy (sessionToken (Express.app srv)) = true /\
  (forall q, Sample.missing (trace (Express.app srv)) q = Responded Sample.notFound) /\
  400 <= status Sample.notFound < 500 /\
  Express.sent
    (snd (Routes.handle Scenario.env Sample.missing Sample.rt 2 Routes.ListApps
                        req srv))
  = [Express.mkSent 500
       (Js.Obj [("error", Js.Str "Request failed with status 404: Not Found");
                ("details", Js.Str Express.NO_DETAILS)])].
Proof.
  cbv zeta. split; [reflexivity|]. split; [reflexivity|].
  split; [reflexivity|]. split; [reflexivity|]. split; [cbn; lia|].
  pose proof (answered_failure_details
                Scenario.env Sample.missing Sample.rt 1 Routes.ListApps
                (Express.mkReq (Js.Obj []) (Js.Obj []))
                (Sample.server (Scenario.stored "abc")) Sample.notFound []
                eq_refl eq_refl eq_refl (fun q => eq_refl)) as W.
  destruct (Routes.handle _ _ _ _ _ _ _) as [o srv'].
  destruct W as (_ & _ & W & _). cbn [snd].
  rewrite W by (cbn; lia). reflexivity.
Defined.

Lemma health_logs_in_again_witness :
  let srv := Sample.server (Scenario.stored "abc") in
  let up := Scenario.scripted
              [Scenario.ok (Scenario.tokenBody "xyz"); Scenario.ok Js.Null] in
  let req := Express.mkReq (Js.Obj []) Js.Undefined in
  let (o, srv') :=
    Routes.health Scenario.env up Sample.rt None 2 Sample.stack req srv in
  o = Express.Value tt /\
  map site (new_events (Express.app srv) (Express.app srv'))
  = [LoginCall; DispatchCall] /\
  sessionToken (Express.app srv') = Js.Str "xyz" /\
  Express.sent srv'
  = [Express.mkSent 200
       (Js.Obj [("status", Js.Str "healthy");
                ("authenticated", Js.Bool true);
                ("apps", Js.Arr [])])].
Proof.
  cbv zeta.
  pose proof (health_logs_in_again
                Scenario.env
                (Scenario.scripted
                   [Scenario.ok (Scenario.tokenBody "xyz"); Scenario.ok Js.Null])
                Sample.rt None Sample.stack 1
                (Express.mkReq (Js.Obj []) Js.Undefined)
                (Sample.server (Scenario.stored "abc"))
                (Js.Str "xyz") (mkResponse 200 Js.Null)
                eq_refl eq_refl ltac:(cbn; lia)) as W.
  cbv zeta in W.
  destruct (Routes.health _ _ _ _ _ _ _ _) as [o srv'].
  destruct W as (-> & -> & -> & ->). repeat split.
Defined.

Lemma health_probes_version_witness :
  let srv := Sample.server (Scenario.stored "abc") in
  let up := Scenario.scripted
              [Scenario.ok (Scenario.tokenBody "xyz"); Responded Sample.broken;
               Scenario.ok (Js.Str "1.13.0")] in
  let req := Express.mkReq (Js.Obj []) Js.Undefined in
  let (o, srv') :=
    Routes.health Scenario.env up Sample.rt None 2 Sample.stack req srv in
  o = Express.Value tt /\
  map site (new_events (Express.app srv) (Express.app srv'))
  = [LoginCall; DispatchCall; DispatchCall] /\
  map Express.code (Express.sent srv') = [500].
Proof.
  cbv zeta.
  pose proof (health_probes_version
                Scenario.env
                (Scenario.scripted
                   [Scenario.ok (Scenario.tokenBody "xyz"); Responded Sample.broken;
                    Scenario.ok (Js.Str "1.13.0")])
                Sample.rt None Sample.stack 1
                (Express.mkReq (Js.Obj []) Js.Undefined)
                (Sample.server (Scenario.stored "abc"))
                (Js.Str "xyz") Sample.broken
                eq_refl eq_refl eq_refl) as W.
  cbv zeta in W.
  destruct (Routes.health _ _ _ _ _ _ _ _) as [o srv'].
  destruct W as (-> & -> & st & ->). repeat split.
Defined.

Lemma stored_credential_never_refreshed_witness :
  let srv := Sample.server (Scenario.stored "abc") in
  let calls := [(Routes.ListApps, Express.mkReq (Js.Obj []) (Js.Obj []));
                (Routes.GetApp, Sample.named "blog" Js.Undefined)] in
  Js.truthy (sessionToken (Express.app srv)) = true /\
  let srv' := Routes.serve Scenario.env Scenario.rejecting Sample.rt 2 calls srv in
  sessionToken (Express.app srv') = Js.Str "abc" /\
  logins (new_events (Express.app srv) (Express.app srv')) = 0%nat /\
  map Express.code (Express.sent srv') = [500].
Proof.
  cbv zeta. split; [reflexivity|].
  pose proof (stored_credential_never_refreshed
                Scenario.env Scenario.rejecting Sample.rt 1
                [(Routes.ListApps, Express.mkReq (Js.Obj []) (Js.Obj []));
                 (Routes.GetApp, Sample.named "blog" Js.Undefined)]
                (Sample.server (Scenario.stored "abc")) eq_refl) as W.
  cbv zeta in W. destruct W as (W1 & W2 & _ & _).
  split; [exact W1|]. split; [exact W2|]. reflexivity.
Defined.


Lemma v1_relays_upstream_message_witness :
  let srv := Sample.history [] in
  let req := Sample.named "Blog" (Js.Obj []) in
  Express.params req = Js.Obj [("appName", Js.Str "Blog")] /\
  Express.reqBody req = Js.Obj [] /\
  (forall q, Sample.refusingName (Express.app srv) q = Responded Sample.refused) /\
  ~ 200 <= status Sample.refused < 300 /\
  Js.truthy (Js.get (body Sample.refused) "message") = true /\
  Express.sent
    (snd (V1.handle Scenario.env Sample.refusingName Sample.rt V1.GetApp req srv))
  = [Express.mkSent 500 (Js.Obj [("error", Js.Str "App name is not allowed")])].
Proof.
  cbv zeta. split; [reflexivity|]. split; [reflexivity|].
  split; [reflexivity|]. split; [cbn; lia|]. split; [reflexivity|].
  pose proof (v1_relays_upstream_message
                Scenario.env Sample.refusingName Sample.rt V1.GetApp
                (Sample.named "Blog" (Js.Obj [])) (Sample.history [])
                Sample.refused [("appName", Js.Str "Blog")] []
                eq_refl eq_refl (fun q => eq_refl)) as W.
  cbv zeta in W.
  destruct (V1.handle _ _ _ _ _ _) as [o srv'].
  destruct W as (_ & W & _). cbn [snd].
  rewrite W by (cbn; first [lia | reflexivity]). reflexivity.
Defined.
